(** * STIMPL: a shallow embedding of [stimpl/runtime.py]

    The interpreter state (a persistent chain of bindings) and the
    recursive evaluator over the expression tree, together with the
    properties the specification states about them. *)

From Stdlib Require Import ZArith List Bool Lia.
From Stdlib Require Import Strings.String Strings.Ascii.
From Stdlib Require Import QArith Qround.
From Stdlib Require Import Floats.PrimFloat.
Import ListNotations.

Local Open Scope Z_scope.

(** ** Runtime type tags *)

(** Modelled from the spec: the module [stimpl/types.py], which the
    runtime imports, is not among the sources.  The tags are the five
    classes the runtime names, a closed enumeration. *)
Inductive Type_ : Set :=
| Unit
| Integer
| FloatingPoint
| String
| Boolean.

(** Modelled from the spec: the equality of [stimpl/types.py] behind
    [t1 != t2]; tags are compared for equality by kind only. *)
Definition Type_eqb (a b : Type_) : bool :=
  match a, b with
  | Unit, Unit
  | Integer, Integer
  | FloatingPoint, FloatingPoint
  | String, String
  | Boolean, Boolean => true
  | _, _ => false
  end.

(** ** Interpreter errors *)

(** Modelled from the spec: the module [stimpl/errors.py] is not among
    the sources.  These are the three exception classes the runtime
    raises; an error is identified by its class, not by its message. *)

Inductive InterpError : Set :=
| InterpSyntaxError
| InterpTypeError
| InterpMathError.

(** ** Host values

    The scalars the interpreter computes with are Python objects:
    [None], [int] (unbounded), [float] (IEEE binary64), [str] and
    [bool]. *)

Inductive PyVal : Set :=
| PyNone
| PyInt (n : Z)
| PyFloat (x : float)
| PyStr (s : string)
| PyBool (b : bool).

(** Python truthiness, as used by [if v], [not v], [v and w], [v or w]. *)
Definition truthy (v : PyVal) : bool :=
  match v with
  | PyNone => false
  | PyInt n => negb (n =? 0)
  | PyFloat x => negb (PrimFloat.eqb x 0%float)
  | PyStr s => negb (String.eqb s EmptyString)
  | PyBool b => b
  end.

(** [v == 0] against the integer literal zero. *)
Definition eq_zero (v : PyVal) : bool :=
  match v with
  | PyNone => false
  | PyInt n => n =? 0
  | PyFloat x => PrimFloat.eqb x 0%float
  | PyStr _ => false
  | PyBool b => negb b
  end.

(** [a and b], [a or b], [not a]: the host's logical operators return
    one of their operands. *)
Definition py_and (a b : PyVal) : PyVal := if truthy a then b else a.
Definition py_or (a b : PyVal) : PyVal := if truthy a then a else b.
Definition py_not (a : PyVal) : PyVal := PyBool (negb (truthy a)).

(** The host's binary operators on the operand shapes a tag admits.
    [None] stands for an exception of the host itself (its own
    [TypeError] or [ZeroDivisionError]) or for a mixed-shape operation;
    [evaluate_no_host_error] below shows that no run from a well-tagged
    state reaches it. *)
Definition py_add (a b : PyVal) : option PyVal :=
  match a, b with
  | PyInt x, PyInt y => Some (PyInt (x + y))
  | PyFloat x, PyFloat y => Some (PyFloat (x + y))
  | PyStr x, PyStr y => Some (PyStr (x ++ y))
  | _, _ => None
  end.

Definition py_sub (a b : PyVal) : option PyVal :=
  match a, b with
  | PyInt x, PyInt y => Some (PyInt (x - y))
  | PyFloat x, PyFloat y => Some (PyFloat (x - y))
  | _, _ => None
  end.

Definition py_mul (a b : PyVal) : option PyVal :=
  match a, b with
  | PyInt x, PyInt y => Some (PyInt (x * y))
  | PyFloat x, PyFloat y => Some (PyFloat (x * y))
  | _, _ => None
  end.

(** [a // b] on integers: floor division; the host raises on a zero
    divisor. *)
Definition py_floordiv (a b : PyVal) : option PyVal :=
  match a, b with
  | PyInt x, PyInt y => if y =? 0 then None else Some (PyInt (x / y))
  | _, _ => None
  end.

(** [a / b] on floats: IEEE division; the host raises on a zero
    divisor. *)
Definition py_truediv (a b : PyVal) : option PyVal :=
  match a, b with
  | PyFloat x, PyFloat y =>
      if PrimFloat.eqb y 0%float then None else Some (PyFloat (x / y))
  | _, _ => None
  end.

Definition py_lt (a b : PyVal) : option bool :=
  match a, b with
  | PyInt x, PyInt y => Some (x <? y)
  | PyBool x, PyBool y => Some (negb x && y)
  | PyStr x, PyStr y => Some (String.ltb x y)
  | PyFloat x, PyFloat y => Some (PrimFloat.ltb x y)
  | _, _ => None
  end.

Definition py_le (a b : PyVal) : option bool :=
  match a, b with
  | PyInt x, PyInt y => Some (x <=? y)
  | PyBool x, PyBool y => Some (implb x y)
  | PyStr x, PyStr y => Some (String.leb x y)
  | PyFloat x, PyFloat y => Some (PrimFloat.leb x y)
  | _, _ => None
  end.

Definition py_gt (a b : PyVal) : option bool :=
  match a, b with
  | PyInt x, PyInt y => Some (x >? y)
  | PyBool x, PyBool y => Some (x && negb y)
  | PyStr x, PyStr y => Some (String.ltb y x)
  | PyFloat x, PyFloat y => Some (PrimFloat.ltb y x)
  | _, _ => None
  end.

Definition py_ge (a b : PyVal) : option bool :=
  match a, b with
  | PyInt x, PyInt y => Some (x >=? y)
  | PyBool x, PyBool y => Some (implb y x)
  | PyStr x, PyStr y => Some (String.leb y x)
  | PyFloat x, PyFloat y => Some (PrimFloat.leb y x)
  | _, _ => None
  end.

Definition py_eq (a b : PyVal) : option bool :=
  match a, b with
  | PyInt x, PyInt y => Some (x =? y)
  | PyBool x, PyBool y => Some (Bool.eqb x y)
  | PyStr x, PyStr y => Some (String.eqb x y)
  | PyFloat x, PyFloat y => Some (PrimFloat.eqb x y)
  | PyNone, PyNone => Some true
  | _, _ => None
  end.

(** ** Interpreter state

    [class State]: one binding per node and a reference to the next
    node; [EmptyState] is the terminal.  No method assigns to a field
    of an existing node, so nodes are values. *)

Inductive State : Set :=
| EmptyState
| StateNode (variable_name : string) (value : PyVal * Type_)
            (next_state : State).

(** [State.set_value]: a new head node whose next is [self]. *)
Definition set_value (self : State) (variable_name : string)
           (variable_value : PyVal) (variable_type : Type_) : State :=
  StateNode variable_name (variable_value, variable_type) self.

(** [State.get_value]: walk toward the terminal, first match wins. *)
Fixpoint get_value (self : State) (variable_name : string)
  : option (PyVal * Type_) :=
  match self with
  | EmptyState => None
  | StateNode name value next_state =>
      if String.eqb name variable_name then Some value
      else get_value next_state variable_name
  end.

(** ** Expressions *)

(** Modelled from the spec: the module [stimpl/expression.py] is not
    among the sources.  One constructor per class that [evaluate]
    matches, with the fields its patterns read; a literal holds a host
    value of its kind.  [Variable_] is the class [Variable].  [Assign]
    holds the target [Variable] node, of which the runtime reads only
    [variable_name]; it is kept here as that name.  [Unhandled] stands
    for an expression object of any other class. *)

#[warnings="-register-all"]
Inductive Expr : Set :=
| Ren
| IntLiteral (literal : Z)
| FloatingPointLiteral (literal : float)
| StringLiteral (literal : string)
| BooleanLiteral (literal : bool)
| Print (to_print : Expr)
| Sequence (exprs : list Expr)
| Program (exprs : list Expr)
| Variable_ (variable_name : string)
| Assign (variable : string) (value : Expr)
| Add (left right : Expr)
| Subtract (left right : Expr)
| Multiply (left right : Expr)
| Divide (left right : Expr)
| And (left right : Expr)
| Or (left right : Expr)
| Not (expr : Expr)
| If (condition true false : Expr)
| Lt (left right : Expr)
| Lte (left right : Expr)
| Gt (left right : Expr)
| Gte (left right : Expr)
| Eq (left right : Expr)
| Ne (left right : Expr)
| While (condition body : Expr)
| Unhandled.

(** ** Effects: the output stream, raised errors, divergence *)

(** A line written by [print]: the text [Unit], or the formatted value. *)
Inductive Line : Set :=
| LineUnit
| LineValue (v : PyVal).

Inductive Outcome (A : Type) : Type :=
| Ok (a : A)
| Raise (e : InterpError)
| HostError
| OutOfFuel.

Arguments Ok {A} a.
Arguments Raise {A} e.
Arguments HostError {A}.
Arguments OutOfFuel {A}.

(** A computation reads the lines written so far and returns its
    outcome with the lines written when it stopped. *)
Definition M (A : Type) : Type := list Line -> Outcome A * list Line.

Definition ret {A} (a : A) : M A := fun out => (Ok a, out).

Definition bind {A B} (m : M A) (k : A -> M B) : M B :=
  fun out =>
    match m out with
    | (Ok a, out') => k a out'
    | (Raise e, out') => (Raise e, out')
    | (HostError, out') => (HostError, out')
    | (OutOfFuel, out') => (OutOfFuel, out')
    end.

Definition raise {A} (e : InterpError) : M A := fun out => (Raise e, out).
Definition host_error {A} : M A := fun out => (HostError, out).
Definition out_of_fuel {A} : M A := fun out => (OutOfFuel, out).
Definition print (l : Line) : M unit := fun out => (Ok tt, out ++ [l]).

Definition host {A} (o : option A) : M A :=
  match o with
  | Some a => ret a
  | None => host_error
  end.

Notation "x <- m ;; k" := (bind m (fun x => k))
  (at level 61, m at next level, right associativity).
Notation "' pat <- m ;; k" := (bind m (fun x => match x with pat => k end))
  (at level 61, pat pattern, m at next level, right associativity).

Definition Result : Set := PyVal * Type_ * State.

(** ** The evaluator's cases after their operands are evaluated *)

Definition eval_Print (printable_value : PyVal) (printable_type : Type_)
           (new_state : State) : M Result :=
  _ <- match printable_type with
       | Unit => print LineUnit
       | _ => print (LineValue printable_value)
       end ;;
  ret (printable_value, printable_type, new_state).

Definition eval_Variable (variable_name : string) (state : State) : M Result :=
  match get_value state variable_name with
  | None => raise InterpSyntaxError
  | Some (variable_value, variable_type) =>
      ret (variable_value, variable_type, state)
  end.

Definition eval_Assign (variable_name : string) (value_result : PyVal)
           (value_type : Type_) (new_state : State) : M Result :=
  let variable_type :=
    match get_value new_state variable_name with
    | Some (_, variable_type) => Some variable_type
    | None => None
    end in
  match variable_type with
  | Some variable_type =>
      if negb (Type_eqb value_type variable_type)
      then raise InterpTypeError
      else ret (value_result, value_type,
                set_value new_state variable_name value_result value_type)
  | None =>
      ret (value_result, value_type,
           set_value new_state variable_name value_result value_type)
  end.

Definition eval_Add (left_result : PyVal) (left_type : Type_)
           (right_result : PyVal) (right_type : Type_) (new_state : State)
  : M Result :=
  if negb (Type_eqb left_type right_type) then raise InterpTypeError
  else match left_type with
       | Integer | String | FloatingPoint =>
           result <- host (py_add left_result right_result) ;;
           ret (result, left_type, new_state)
       | _ => raise InterpTypeError
       end.

Definition eval_Subtract (left_result : PyVal) (left_type : Type_)
           (right_result : PyVal) (right_type : Type_) (new_state : State)
  : M Result :=
  if negb (Type_eqb left_type right_type) then raise InterpTypeError
  else match left_type with
       | Integer | FloatingPoint =>
           result <- host (py_sub left_result right_result) ;;
           ret (result, left_type, new_state)
       | _ => raise InterpTypeError
       end.

Definition eval_Multiply (left_result : PyVal) (left_type : Type_)
           (right_result : PyVal) (right_type : Type_) (new_state : State)
  : M Result :=
  if negb (Type_eqb left_type right_type) then raise InterpTypeError
  else match left_type with
       | Integer | FloatingPoint =>
           result <- host (py_mul left_result right_result) ;;
           ret (result, left_type, new_state)
       | _ => raise InterpTypeError
       end.

Definition eval_Divide (left_result : PyVal) (left_type : Type_)
           (right_result : PyVal) (right_type : Type_) (new_state : State)
  : M Result :=
  if negb (Type_eqb left_type right_type) then raise InterpTypeError
  else if eq_zero right_result then raise InterpMathError
  else match left_type with
       | Integer =>
           result <- host (py_floordiv left_result right_result) ;;
           ret (result, left_type, new_state)
       | FloatingPoint =>
           result <- host (py_truediv left_result right_result) ;;
           ret (result, left_type, new_state)
       | _ => raise InterpTypeError
       end.

Definition eval_And (left_value : PyVal) (left_type : Type_)
           (right_value : PyVal) (right_type : Type_) (new_state : State)
  : M Result :=
  if negb (Type_eqb left_type right_type) then raise InterpTypeError
  else match left_type with
       | Boolean => ret (py_and left_value right_value, left_type, new_state)
       | _ => raise InterpTypeError
       end.

Definition eval_Or (left_value : PyVal) (left_type : Type_)
           (right_value : PyVal) (right_type : Type_) (new_state : State)
  : M Result :=
  if negb (Type_eqb left_type right_type) then raise InterpTypeError
  else match left_type with
       | Boolean => ret (py_or left_value right_value, left_type, new_state)
       | _ => raise InterpTypeError
       end.

Definition eval_Not (expr_value : PyVal) (expr_type : Type_)
           (new_state : State) : M Result :=
  match expr_type with
  | Boolean => ret (py_not expr_value, expr_type, new_state)
  | _ => raise InterpTypeError
  end.

(** The six comparisons share one shape: the host comparison on the
    four scalar tags, a constant on [Unit]. *)
Definition eval_compare (op : PyVal -> PyVal -> option bool) (on_unit : bool)
           (left_value : PyVal) (left_type : Type_)
           (right_value : PyVal) (right_type : Type_) (new_state : State)
  : M Result :=
  if negb (Type_eqb left_type right_type) then raise InterpTypeError
  else match left_type with
       | Integer | Boolean | String | FloatingPoint =>
           result <- host (op left_value right_value) ;;
           ret (PyBool result, Boolean, new_state)
       | Unit => ret (PyBool on_unit, Boolean, new_state)
       end.

Definition py_ne (a b : PyVal) : option bool := option_map negb (py_eq a b).

Definition eval_Lt := eval_compare py_lt false.
Definition eval_Lte := eval_compare py_le true.
Definition eval_Gt := eval_compare py_gt false.
Definition eval_Gte := eval_compare py_ge true.
Definition eval_Eq := eval_compare py_eq true.
Definition eval_Ne := eval_compare py_ne false.

(** ** The two loops of the evaluator *)

Section Loops.

(** The [for expr in exprs] loop of Sequence and Program. *)
Section SequenceLoop.
Variable ev : Expr -> State -> M Result.

Fixpoint sequence_loop (exprs : list Expr) (final_value : PyVal)
         (final_type : Type_) (current_state : State) : M Result :=
  match exprs with
  | [] => ret (final_value, final_type, current_state)
  | expr :: rest =>
      '(final_value, final_type, current_state) <- ev expr current_state ;;
      sequence_loop rest final_value final_type current_state
  end.

End SequenceLoop.

(** The [while True] loop of While; [n] bounds the number of times
    the body may still be entered. *)
Section WhileLoop.
Variables ev_condition ev_body : State -> M Result.

Fixpoint while_loop (n : nat) (final_value : PyVal) (final_type : Type_)
         (current : State) : M Result :=
  '(condition_value, condition_type, new_state) <- ev_condition current ;;
  match condition_type with
  | Boolean =>
      if negb (truthy condition_value)
      then ret (final_value, final_type, current)
      else match n with
           | O => out_of_fuel
           | S n' =>
               '(final_value, final_type, current) <- ev_body new_state ;;
               while_loop n' final_value final_type current
           end
  | _ => raise InterpTypeError
  end.

End WhileLoop.

End Loops.

(** ** [evaluate]

    Recursion follows the expression tree, as in the source; a While
    loop iterates in place.  [fuel] bounds the iterations of each
    While loop, the only source of non-termination. *)

Fixpoint evaluate (fuel : nat) (expression : Expr) (state : State)
         {struct expression} : M Result :=
  match expression with
  | Ren => ret (PyNone, Unit, state)
  | IntLiteral l => ret (PyInt l, Integer, state)
  | FloatingPointLiteral l => ret (PyFloat l, FloatingPoint, state)
  | StringLiteral l => ret (PyStr l, String, state)
  | BooleanLiteral l => ret (PyBool l, Boolean, state)
  | Print to_print =>
      '(printable_value, printable_type, new_state) <-
        evaluate fuel to_print state ;;
      eval_Print printable_value printable_type new_state
  | Sequence exprs | Program exprs =>
      sequence_loop (evaluate fuel) exprs PyNone Unit state
  | Variable_ variable_name => eval_Variable variable_name state
  | Assign variable value =>
      '(value_result, value_type, new_state) <- evaluate fuel value state ;;
      eval_Assign variable value_result value_type new_state
  | Add left_ right_ =>
      '(left_result, left_type, new_state) <- evaluate fuel left_ state ;;
      '(right_result, right_type, new_state) <- evaluate fuel right_ new_state ;;
      eval_Add left_result left_type right_result right_type new_state
  | Subtract left_ right_ =>
      '(left_result, left_type, new_state) <- evaluate fuel left_ state ;;
      '(right_result, right_type, new_state) <- evaluate fuel right_ new_state ;;
      eval_Subtract left_result left_type right_result right_type new_state
  | Multiply left_ right_ =>
      '(left_result, left_type, new_state) <- evaluate fuel left_ state ;;
      '(right_result, right_type, new_state) <- evaluate fuel right_ new_state ;;
      eval_Multiply left_result left_type right_result right_type new_state
  | Divide left_ right_ =>
      '(left_result, left_type, new_state) <- evaluate fuel left_ state ;;
      '(right_result, right_type, new_state) <- evaluate fuel right_ new_state ;;
      eval_Divide left_result left_type right_result right_type new_state
  | And left_ right_ =>
      '(left_value, left_type, new_state) <- evaluate fuel left_ state ;;
      '(right_value, right_type, new_state) <- evaluate fuel right_ new_state ;;
      eval_And left_value left_type right_value right_type new_state
  | Or left_ right_ =>
      '(left_value, left_type, new_state) <- evaluate fuel left_ state ;;
      '(right_value, right_type, new_state) <- evaluate fuel right_ new_state ;;
      eval_Or left_value left_type right_value right_type new_state
  | Not expr =>
      '(expr_value, expr_type, new_state) <- evaluate fuel expr state ;;
      eval_Not expr_value expr_type new_state
  | If condition true_ false_ =>
      '(condition_value, condition_type, new_state) <-
        evaluate fuel condition state ;;
      match condition_type with
      | Boolean =>
          if truthy condition_value then evaluate fuel true_ new_state
          else evaluate fuel false_ new_state
      | _ => raise InterpTypeError
      end
  | Lt left_ right_ =>
      '(left_value, left_type, new_state) <- evaluate fuel left_ state ;;
      '(right_value, right_type, new_state) <- evaluate fuel right_ new_state ;;
      eval_Lt left_value left_type right_value right_type new_state
  | Lte left_ right_ =>
      '(left_value, left_type, new_state) <- evaluate fuel left_ state ;;
      '(right_value, right_type, new_state) <- evaluate fuel right_ new_state ;;
      eval_Lte left_value left_type right_value right_type new_state
  | Gt left_ right_ =>
      '(left_value, left_type, new_state) <- evaluate fuel left_ state ;;
      '(right_value, right_type, new_state) <- evaluate fuel right_ new_state ;;
      eval_Gt left_value left_type right_value right_type new_state
  | Gte left_ right_ =>
      '(left_value, left_type, new_state) <- evaluate fuel left_ state ;;
      '(right_value, right_type, new_state) <- evaluate fuel right_ new_state ;;
      eval_Gte left_value left_type right_value right_type new_state
  | Eq left_ right_ =>
      '(left_value, left_type, new_state) <- evaluate fuel left_ state ;;
      '(right_value, right_type, new_state) <- evaluate fuel right_ new_state ;;
      eval_Eq left_value left_type right_value right_type new_state
  | Ne left_ right_ =>
      '(left_value, left_type, new_state) <- evaluate fuel left_ state ;;
      '(right_value, right_type, new_state) <- evaluate fuel right_ new_state ;;
      eval_Ne left_value left_type right_value right_type new_state
  | While condition body =>
      while_loop (evaluate fuel condition) (evaluate fuel body)
                 fuel PyNone Unit state
  | Unhandled => raise InterpSyntaxError
  end.

(** [run_stimpl] with [debug=False]: evaluation starts from the empty
    state and nothing written yet. *)
Definition run_stimpl (fuel : nat) (program : Expr) : Outcome Result * list Line :=
  evaluate fuel program EmptyState [].

(** ** Predicates on states, expressions and computations *)

(** [extends old new]: [new] is [old] with nodes put in front of it;
    every node of [old], with its name, value, tag and next node, is a
    node of [new]. *)
Inductive extends (old : State) : State -> Prop :=
| extends_same : extends old old
| extends_node name value new :
    extends old new -> extends old (StateNode name value new).

(** The bindings of a chain, head first (the order of [__repr__]). *)
Fixpoint bindings (state : State) : list (string * (PyVal * Type_)) :=
  match state with
  | EmptyState => []
  | StateNode name value next_state => (name, value) :: bindings next_state
  end.

(** An expression with no Assign and no Print node. *)
Fixpoint pure (expression : Expr) : bool :=
  match expression with
  | Ren | IntLiteral _ | FloatingPointLiteral _ | StringLiteral _
  | BooleanLiteral _ | Variable_ _ | Unhandled => true
  | Print _ | Assign _ _ => false
  | Sequence exprs | Program exprs => forallb pure exprs
  | Not e => pure e
  | Add l r | Subtract l r | Multiply l r | Divide l r | And l r | Or l r
  | Lt l r | Lte l r | Gt l r | Gte l r | Eq l r | Ne l r
  | While l r => pure l && pure r
  | If c t f => pure c && pure t && pure f
  end.

(** A value has the shape its tag announces. *)
Definition has_tag (v : PyVal) (t : Type_) : Prop :=
  match t, v with
  | Unit, PyNone
  | Integer, PyInt _
  | FloatingPoint, PyFloat _
  | String, PyStr _
  | Boolean, PyBool _ => True
  | _, _ => False
  end.

Fixpoint well_tagged (state : State) : Prop :=
  match state with
  | EmptyState => True
  | StateNode _ (v, t) next_state => has_tag v t /\ well_tagged next_state
  end.

(** [tagged m]: [m] never stops on an error of the host, and what it
    returns is a value of the shape of its tag with a well-tagged
    state. *)
Definition tagged (m : M Result) : Prop :=
  forall out o out',
    m out = (o, out') ->
    match o with
    | Ok (v, t, s) => has_tag v t /\ well_tagged s
    | HostError => False
    | Raise _ | OutOfFuel => True
    end.

(** [refines m1 m2]: whatever [m1] computes without running out of
    fuel, [m2] computes too. *)
Definition refines {A} (m1 m2 : M A) : Prop :=
  forall out o out', m1 out = (o, out') -> o <> OutOfFuel -> m2 out = (o, out').

(** Structural induction on expressions, through the lists of Sequence
    and Program. *)
Section Expr_induction.
Variable P : Expr -> Prop.
Hypothesis P_Ren : P Ren.
Hypothesis P_IntLiteral : forall l, P (IntLiteral l).
Hypothesis P_FloatingPointLiteral : forall l, P (FloatingPointLiteral l).
Hypothesis P_StringLiteral : forall l, P (StringLiteral l).
Hypothesis P_BooleanLiteral : forall l, P (BooleanLiteral l).
Hypothesis P_Print : forall e, P e -> P (Print e).
Hypothesis P_Sequence : forall exprs, Forall P exprs -> P (Sequence exprs).
Hypothesis P_Program : forall exprs, Forall P exprs -> P (Program exprs).
Hypothesis P_Variable : forall name, P (Variable_ name).
Hypothesis P_Assign : forall name e, P e -> P (Assign name e).
Hypothesis P_Add : forall l r, P l -> P r -> P (Add l r).
Hypothesis P_Subtract : forall l r, P l -> P r -> P (Subtract l r).
Hypothesis P_Multiply : forall l r, P l -> P r -> P (Multiply l r).
Hypothesis P_Divide : forall l r, P l -> P r -> P (Divide l r).
Hypothesis P_And : forall l r, P l -> P r -> P (And l r).
Hypothesis P_Or : forall l r, P l -> P r -> P (Or l r).
Hypothesis P_Not : forall e, P e -> P (Not e).
Hypothesis P_If : forall c t f, P c -> P t -> P f -> P (If c t f).
Hypothesis P_Lt : forall l r, P l -> P r -> P (Lt l r).
Hypothesis P_Lte : forall l r, P l -> P r -> P (Lte l r).
Hypothesis P_Gt : forall l r, P l -> P r -> P (Gt l r).
Hypothesis P_Gte : forall l r, P l -> P r -> P (Gte l r).
Hypothesis P_Eq : forall l r, P l -> P r -> P (Eq l r).
Hypothesis P_Ne : forall l r, P l -> P r -> P (Ne l r).
Hypothesis P_While : forall c b, P c -> P b -> P (While c b).
Hypothesis P_Unhandled : P Unhandled.

Fixpoint Expr_nested_ind (e : Expr) : P e :=
  let all :=
    fix all (exprs : list Expr) : Forall P exprs :=
      match exprs with
      | [] => Forall_nil P
      | x :: rest => Forall_cons x (Expr_nested_ind x) (all rest)
      end in
  match e with
  | Ren => P_Ren
  | IntLiteral l => P_IntLiteral l
  | FloatingPointLiteral l => P_FloatingPointLiteral l
  | StringLiteral l => P_StringLiteral l
  | BooleanLiteral l => P_BooleanLiteral l
  | Print e => P_Print e (Expr_nested_ind e)
  | Sequence exprs => P_Sequence exprs (all exprs)
  | Program exprs => P_Program exprs (all exprs)
  | Variable_ name => P_Variable name
  | Assign name e => P_Assign name e (Expr_nested_ind e)
  | Add l r => P_Add l r (Expr_nested_ind l) (Expr_nested_ind r)
  | Subtract l r => P_Subtract l r (Expr_nested_ind l) (Expr_nested_ind r)
  | Multiply l r => P_Multiply l r (Expr_nested_ind l) (Expr_nested_ind r)
  | Divide l r => P_Divide l r (Expr_nested_ind l) (Expr_nested_ind r)
  | And l r => P_And l r (Expr_nested_ind l) (Expr_nested_ind r)
  | Or l r => P_Or l r (Expr_nested_ind l) (Expr_nested_ind r)
  | Not e => P_Not e (Expr_nested_ind e)
  | If c t f =>
      P_If c t f (Expr_nested_ind c) (Expr_nested_ind t) (Expr_nested_ind f)
  | Lt l r => P_Lt l r (Expr_nested_ind l) (Expr_nested_ind r)
  | Lte l r => P_Lte l r (Expr_nested_ind l) (Expr_nested_ind r)
  | Gt l r => P_Gt l r (Expr_nested_ind l) (Expr_nested_ind r)
  | Gte l r => P_Gte l r (Expr_nested_ind l) (Expr_nested_ind r)
  | Eq l r => P_Eq l r (Expr_nested_ind l) (Expr_nested_ind r)
  | Ne l r => P_Ne l r (Expr_nested_ind l) (Expr_nested_ind r)
  | While c b => P_While c b (Expr_nested_ind c) (Expr_nested_ind b)
  | Unhandled => P_Unhandled
  end.

End Expr_induction.

(** The twelve expression forms that [evaluate] treats as binary
    operators: both operands evaluated left to right, then a check
    that the two tags agree. *)
Definition binary_operators : list (Expr -> Expr -> Expr) :=
  [Add; Subtract; Multiply; Divide; And; Or; Lt; Lte; Gt; Gte; Eq; Ne].

(** [keeps_tags old new]: every name bound in [old] is bound in [new],
    with the tag it had. *)
Definition keeps_tags (old new : State) : Prop :=
  forall name v t,
    get_value old name = Some (v, t) ->
    exists v', get_value new name = Some (v', t).

(** [appends m]: [m] only adds lines after those already written, and
    neither its outcome nor the lines it adds depend on them. *)
Definition appends {A} (m : M A) : Prop :=
  forall out, m out = (fst (m []), out ++ snd (m [])).


(** ** The dynamic scope of [dynamic_scope/__init__.py] *)

Module dynamic_scope.

(** A [dict] with string keys: the items in insertion order, each key
    once. *)
Definition Dict (Any : Type) : Type := list (string * Any).

(** [d[k]] where it is defined. *)
Fixpoint item {Any} (d : Dict Any) (k : string) : option Any :=
  match d with
  | [] => None
  | (key, value) :: rest =>
      if String.eqb key k then Some value else item rest k
  end.

(** [k in d]. *)
Definition contains {Any} (d : Dict Any) (k : string) : bool :=
  existsb (fun kv => String.eqb (fst kv) k) d.

(** [d[k] = v]: a key already there keeps its place and takes the
    value, a new key goes last. *)
Fixpoint setitem {Any} (d : Dict Any) (k : string) (v : Any) : Dict Any :=
  match d with
  | [] => [(k, v)]
  | (key, value) :: rest =>
      if String.eqb key k then (key, v) :: rest
      else (key, value) :: setitem rest k v
  end.

(** What [get_dynamic_re] reads of a frame of [inspect.stack()]:
    [frame.f_locals] and [frame.f_code.co_freevars]. *)
Record FrameInfo (Any : Type) : Type := {
  f_locals : Dict Any;
  co_freevars : list string
}.

Arguments f_locals {Any} _.
Arguments co_freevars {Any} _.

Record DynamicScope (Any : Type) : Type := { env : Dict Any }.

Arguments env {Any} _.

Inductive Raising (A : Type) : Type :=
| Returns (a : A)
| NameError.

Arguments Returns {A} a.
Arguments NameError {A}.

(** [DynamicScope.__getitem__]. *)
Definition getitem {Any} (self : DynamicScope Any) (k : string) : Raising Any :=
  if contains (env self) k then
    match item (env self) k with
    | Some value => Returns value
    | None => NameError
    end
  else NameError.

(** [DynamicScope.__iter__], as the keys it yields, and [__len__]. *)
Definition iter {Any} (self : DynamicScope Any) : list string :=
  map fst (env self).

Definition len {Any} (self : DynamicScope Any) : nat :=
  List.length (env self).

(** The inner loop of [get_dynamic_re], over the locals of one frame. *)
Definition add_locals {Any} (freeVars : list string) (dictionary : Dict Any)
           (localVars : Dict Any) : Dict Any :=
  fold_left
    (fun dictionary kv =>
       match kv with
       | (key, value) =>
           if negb (contains dictionary key)
              && negb (existsb (String.eqb key) freeVars)
           then setitem dictionary key value
           else dictionary
       end)
    localVars dictionary.

(** [get_dynamic_re], given the frames [stack[1:]] of the callers,
    nearest first. *)
Definition get_dynamic_re {Any} (callers : list (FrameInfo Any))
  : DynamicScope Any :=
  {| env :=
      fold_left
        (fun dictionary frame =>
           add_locals (co_freevars frame) dictionary (f_locals frame))
        callers [] |}.

(** A frame binds [k] as a local that is not one of its free
    variables. *)
Definition binds {Any} (k : string) (frame : FrameInfo Any) : bool :=
  contains (f_locals frame) k && negb (existsb (String.eqb k) (co_freevars frame)).

End dynamic_scope.

(** ** Running the model on the specification's examples *)

Example run_count_to_three :
  let program :=
    Program [Assign "x" (IntLiteral 0);
             While (Lt (Variable_ "x") (IntLiteral 3))
                   (Assign "x" (Add (Variable_ "x") (IntLiteral 1)))] in
  exists state,
    run_stimpl 3 program = (Ok (PyInt 3, Integer, state), []) /\
    get_value state "x" = Some (PyInt 3, Integer).
Proof. eexists; split; reflexivity. Qed.

(** ** Laws of the effect layer *)

Lemma bind_ok {A B} (m : M A) (k : A -> M B) out a out1 :
  m out = (Ok a, out1) -> bind m k out = k a out1.
Proof. unfold bind; intros ->; reflexivity. Qed.

Lemma bind_raise {A B} (m : M A) (k : A -> M B) out e out1 :
  m out = (Raise e, out1) -> bind m k out = (Raise e, out1).
Proof. unfold bind; intros ->; reflexivity. Qed.

Lemma bind_out_of_fuel {A B} (m : M A) (k : A -> M B) out out1 :
  m out = (OutOfFuel, out1) -> bind m k out = (OutOfFuel, out1).
Proof. unfold bind; intros ->; reflexivity. Qed.

Lemma bind_host_error {A B} (m : M A) (k : A -> M B) out out1 :
  m out = (HostError, out1) -> bind m k out = (HostError, out1).
Proof. unfold bind; intros ->; reflexivity. Qed.

(** A [bind] that succeeds ran both of its parts. *)
Lemma bind_ok_inv {A B} (m : M A) (k : A -> M B) out b out' :
  bind m k out = (Ok b, out') ->
  exists a out1, m out = (Ok a, out1) /\ k a out1 = (Ok b, out').
Proof.
  unfold bind. destruct (m out) as [[a| e | |] out1]; try discriminate.
  intros H. exists a, out1. split; [reflexivity | exact H].
Qed.

Lemma Type_eqb_refl (t : Type_) : Type_eqb t t = true.
Proof. destruct t; reflexivity. Qed.

Lemma Type_eqb_eq (a b : Type_) : Type_eqb a b = true <-> a = b.
Proof. destruct a, b; simpl; split; congruence. Qed.

Lemma Type_eqb_neq (a b : Type_) : Type_eqb a b = false <-> a <> b.
Proof. destruct a, b; simpl; split; congruence. Qed.

(** Unfolding equations of [evaluate] on the binary forms, once the
    operands have been evaluated. *)
Ltac eval_operands Hl Hr :=
  cbn [evaluate];
  rewrite (bind_ok _ _ _ _ _ Hl); cbn beta iota;
  rewrite (bind_ok _ _ _ _ _ Hr); cbn beta iota.

(** ** Variable lookup and the error raised for a missing name *)

Lemma get_value_set_value state name v t :
  get_value (set_value state name v t) name = Some (v, t).
Proof. simpl. now rewrite String.eqb_refl. Qed.

Lemma evaluate_Variable_bound fuel state name v t out :
  get_value state name = Some (v, t) ->
  evaluate fuel (Variable_ name) state out = (Ok (v, t, state), out).
Proof. intros H. cbn [evaluate]. unfold eval_Variable. now rewrite H. Qed.

(** C1, as amended: reading a name that has no binding raises
    [InterpSyntaxError], and so does an expression of an unrecognised
    kind: the runtime has no separate error for an unbound name. *)
Theorem evaluate_Variable_unbound fuel state name out :
  get_value state name = None ->
  evaluate fuel (Variable_ name) state out = (Raise InterpSyntaxError, out) /\
  evaluate fuel Unhandled state out = (Raise InterpSyntaxError, out).
Proof.
  intros H. split; [|reflexivity].
  cbn [evaluate]. unfold eval_Variable. now rewrite H.
Qed.

Lemma evaluate_Variable_unbound_witness :
  get_value EmptyState "x" = None /\
  evaluate 0 (Variable_ "x") EmptyState [] = (Raise InterpSyntaxError, []) /\
  evaluate 0 Unhandled EmptyState [] = (Raise InterpSyntaxError, []).
Proof.
  split; [reflexivity|].
  apply (evaluate_Variable_unbound 0 EmptyState "x" []). reflexivity.
Defined.

(** C1 as stated fails: there is no error kind that the unbound
    reference [Variable("x")] raises and the unrecognised expression
    does not. *)
Lemma unbound_name_kind_not_distinct :
  get_value EmptyState "x" = None /\
  ~ (exists kind,
        evaluate 0 (Variable_ "x") EmptyState [] = (Raise kind, []) /\
        evaluate 0 Unhandled EmptyState [] <> (Raise kind, [])).
Proof.
  split; [reflexivity|].
  intros [kind [Hvar Hother]]. apply Hother.
  rewrite <- Hvar. reflexivity.
Qed.

(** ** Division *)

(** Floor of the rational quotient is the integer quotient [a / b] of
    [Z], for a divisor of either sign. *)
Lemma Qfloor_quotient (a b : Z) :
  b <> 0 -> Qfloor (inject_Z a / inject_Z b) = a / b.
Proof.
  intros Hb. destruct b as [|p|p]; [contradiction| |];
    unfold Qdiv, Qinv, Qmult, Qfloor, inject_Z; cbn [Qnum Qden].
  - now rewrite Z.mul_1_r, Pos.mul_1_l.
  - rewrite Pos.mul_1_l.
    change (Z.neg p) with (- Z.pos p).
    rewrite <- (Z.div_opp_opp a (- Z.pos p)) by lia.
    rewrite Z.opp_involutive. f_equal. lia.
Qed.

(** C2: with operands of one tag and a right value that compares equal
    to zero, Divide raises [InterpMathError], whatever the tag; so do
    5 / 0 on integers and 5.0 / 0.0 on floats. *)
Theorem evaluate_Divide_by_zero :
  (forall fuel l r state out lv rv tag st1 out1 st2 out2,
      evaluate fuel l state out = (Ok (lv, tag, st1), out1) ->
      evaluate fuel r st1 out1 = (Ok (rv, tag, st2), out2) ->
      eq_zero rv = true ->
      evaluate fuel (Divide l r) state out = (Raise InterpMathError, out2)) /\
  (forall fuel state out,
      evaluate fuel (Divide (IntLiteral 5) (IntLiteral 0)) state out
      = (Raise InterpMathError, out)) /\
  (forall fuel state out,
      evaluate fuel (Divide (FloatingPointLiteral 5.0) (FloatingPointLiteral 0.0))
               state out
      = (Raise InterpMathError, out)).
Proof.
  split; [|split; reflexivity].
  intros fuel l r state out lv rv tag st1 out1 st2 out2 Hl Hr Hz.
  eval_operands Hl Hr. unfold eval_Divide.
  now rewrite Type_eqb_refl, Hz.
Qed.

Lemma evaluate_Divide_by_zero_witness :
  evaluate 0 (Divide (BooleanLiteral true) (BooleanLiteral false)) EmptyState []
  = (Raise InterpMathError, []).
Proof.
  apply (proj1 evaluate_Divide_by_zero 0%nat (BooleanLiteral true)
               (BooleanLiteral false) EmptyState [] (PyBool true)
               (PyBool false) Boolean EmptyState [] EmptyState []);
    reflexivity.
Defined.

(** C6: with both tags Integer and a non-zero divisor the result is the
    floor of the quotient; with both tags FloatingPoint and a divisor
    that is not zero it is the float quotient of the host's [/]
    (no flooring); 7 / 2 is 3 and 7.0 / 2.0 is 3.5. *)
Theorem evaluate_Divide_quotient :
  (forall fuel l r state out a b st1 out1 st2 out2,
      evaluate fuel l state out = (Ok (PyInt a, Integer, st1), out1) ->
      evaluate fuel r st1 out1 = (Ok (PyInt b, Integer, st2), out2) ->
      b <> 0 ->
      evaluate fuel (Divide l r) state out
      = (Ok (PyInt (Qfloor (inject_Z a / inject_Z b)), Integer, st2), out2)) /\
  (forall fuel l r state out x y st1 out1 st2 out2,
      evaluate fuel l state out = (Ok (PyFloat x, FloatingPoint, st1), out1) ->
      evaluate fuel r st1 out1 = (Ok (PyFloat y, FloatingPoint, st2), out2) ->
      PrimFloat.eqb y 0%float = false ->
      evaluate fuel (Divide l r) state out
      = (Ok (PyFloat (x / y)%float, FloatingPoint, st2), out2)) /\
  (forall fuel state out,
      evaluate fuel (Divide (IntLiteral 7) (IntLiteral 2)) state out
      = (Ok (PyInt 3, Integer, state), out)) /\
  (forall fuel state out,
      evaluate fuel (Divide (FloatingPointLiteral 7.0) (FloatingPointLiteral 2.0))
               state out
      = (Ok (PyFloat 3.5, FloatingPoint, state), out)).
Proof.
  repeat split; try reflexivity.
  - intros fuel l r state out a b st1 out1 st2 out2 Hl Hr Hb.
    eval_operands Hl Hr. rewrite (Qfloor_quotient a b Hb).
    assert (Hz : (b =? 0) = false) by now apply Z.eqb_neq.
    unfold eval_Divide, py_floordiv. cbn. now rewrite Hz.
  - intros fuel l r state out x y st1 out1 st2 out2 Hl Hr Hy.
    eval_operands Hl Hr. unfold eval_Divide, py_truediv.
    cbn. rewrite Hy. reflexivity.
Qed.

Lemma evaluate_Divide_quotient_witness :
  evaluate 0 (Divide (IntLiteral (-7)) (IntLiteral 2)) EmptyState []
  = (Ok (PyInt (-4), Integer, EmptyState), []) /\
  evaluate 0 (Divide (FloatingPointLiteral 1.0) (FloatingPointLiteral 4.0))
           EmptyState []
  = (Ok (PyFloat 0.25, FloatingPoint, EmptyState), []).
Proof.
  split.
  - apply (proj1 evaluate_Divide_quotient 0%nat (IntLiteral (-7)) (IntLiteral 2)
                 EmptyState [] (-7) 2 EmptyState [] EmptyState []);
      [reflexivity | reflexivity | lia].
  - apply (proj1 (proj2 evaluate_Divide_quotient) 0%nat
                 (FloatingPointLiteral 1.0) (FloatingPointLiteral 4.0)
                 EmptyState [] 1.0%float 4.0%float EmptyState [] EmptyState []);
      reflexivity.
Defined.

(** ** Comparisons of Unit operands *)

(** C8: on two operands tagged Unit, Lt and Gt give false, Lte, Gte and
    Eq give true, Ne gives false; the tag of the result is Boolean and
    the state is the one left by the right operand. *)
Theorem evaluate_compare_Unit fuel l r state out lv rv st1 out1 st2 out2 :
  evaluate fuel l state out = (Ok (lv, Unit, st1), out1) ->
  evaluate fuel r st1 out1 = (Ok (rv, Unit, st2), out2) ->
  evaluate fuel (Lt l r) state out = (Ok (PyBool false, Boolean, st2), out2) /\
  evaluate fuel (Gt l r) state out = (Ok (PyBool false, Boolean, st2), out2) /\
  evaluate fuel (Lte l r) state out = (Ok (PyBool true, Boolean, st2), out2) /\
  evaluate fuel (Gte l r) state out = (Ok (PyBool true, Boolean, st2), out2) /\
  evaluate fuel (Eq l r) state out = (Ok (PyBool true, Boolean, st2), out2) /\
  evaluate fuel (Ne l r) state out = (Ok (PyBool false, Boolean, st2), out2).
Proof.
  intros Hl Hr. repeat split; eval_operands Hl Hr; reflexivity.
Qed.

Lemma evaluate_compare_Unit_witness :
  let state := StateNode "u" (PyNone, Unit) EmptyState in
  evaluate 0 (Lt (Variable_ "u") Ren) state [] = (Ok (PyBool false, Boolean, state), []) /\
  evaluate 0 (Gt (Variable_ "u") Ren) state [] = (Ok (PyBool false, Boolean, state), []) /\
  evaluate 0 (Lte (Variable_ "u") Ren) state [] = (Ok (PyBool true, Boolean, state), []) /\
  evaluate 0 (Gte (Variable_ "u") Ren) state [] = (Ok (PyBool true, Boolean, state), []) /\
  evaluate 0 (Eq (Variable_ "u") Ren) state [] = (Ok (PyBool true, Boolean, state), []) /\
  evaluate 0 (Ne (Variable_ "u") Ren) state [] = (Ok (PyBool false, Boolean, state), []).
Proof.
  intros state.
  apply (evaluate_compare_Unit 0 (Variable_ "u") Ren state [] PyNone PyNone
                               state [] state []); reflexivity.
Defined.

(** ** And, Or *)

(** C5: And and Or evaluate the left operand, then the right one in the
    state and after the output of the left; an error of the right
    operand is raised whatever the left tag is; with both evaluated,
    the result is the logical value when both tags are Boolean and
    [InterpTypeError] otherwise, after everything either operand
    wrote.  [And(false, Print(e))] with a Boolean [e] writes the line
    of [e] and yields false. *)
Theorem evaluate_And_Or_both_operands :
  (forall fuel l r state out lv lt st1 out1 e out2,
      evaluate fuel l state out = (Ok (lv, lt, st1), out1) ->
      evaluate fuel r st1 out1 = (Raise e, out2) ->
      evaluate fuel (And l r) state out = (Raise e, out2) /\
      evaluate fuel (Or l r) state out = (Raise e, out2)) /\
  (forall fuel l r state out lv lt st1 out1 rv rt st2 out2,
      evaluate fuel l state out = (Ok (lv, lt, st1), out1) ->
      evaluate fuel r st1 out1 = (Ok (rv, rt, st2), out2) ->
      evaluate fuel (And l r) state out
      = (match lt, rt with
         | Boolean, Boolean => Ok (py_and lv rv, Boolean, st2)
         | _, _ => Raise InterpTypeError
         end, out2) /\
      evaluate fuel (Or l r) state out
      = (match lt, rt with
         | Boolean, Boolean => Ok (py_or lv rv, Boolean, st2)
         | _, _ => Raise InterpTypeError
         end, out2)) /\
  (forall fuel e state out v st1 out1,
      evaluate fuel e state out = (Ok (v, Boolean, st1), out1) ->
      evaluate fuel (And (BooleanLiteral false) (Print e)) state out
      = (Ok (PyBool false, Boolean, st1), out1 ++ [LineValue v])).
Proof.
  split; [|split].
  - intros fuel l r state out lv lt st1 out1 e out2 Hl Hr.
    split; cbn [evaluate]; rewrite (bind_ok _ _ _ _ _ Hl); cbn beta iota;
      now rewrite (bind_raise _ _ _ _ _ Hr).
  - intros fuel l r state out lv lt st1 out1 rv rt st2 out2 Hl Hr.
    split; eval_operands Hl Hr; destruct lt, rt; reflexivity.
  - intros fuel e state out v st1 out1 He.
    cbn [evaluate]. unfold bind at 1. cbn [ret].
    rewrite (bind_ok _ _ _ _ _ (bind_ok _ _ _ _ _ He)). reflexivity.
Qed.

Lemma evaluate_And_Or_both_operands_witness :
  evaluate 0 (And (Print (IntLiteral 0)) (Variable_ "x")) EmptyState []
  = (Raise InterpSyntaxError, [LineValue (PyInt 0)]) /\
  evaluate 0 (Or (BooleanLiteral true) (Print (BooleanLiteral false))) EmptyState []
  = (Ok (PyBool true, Boolean, EmptyState), [LineValue (PyBool false)]) /\
  evaluate 0 (And (BooleanLiteral false) (Print (BooleanLiteral true))) EmptyState []
  = (Ok (PyBool false, Boolean, EmptyState), [LineValue (PyBool true)]).
Proof.
  split; [|split].
  - apply (proj1 evaluate_And_Or_both_operands 0%nat (Print (IntLiteral 0))
                 (Variable_ "x") EmptyState [] (PyInt 0) Integer EmptyState
                 [LineValue (PyInt 0)] InterpSyntaxError [LineValue (PyInt 0)]);
      reflexivity.
  - apply (proj1 (proj2 evaluate_And_Or_both_operands) 0%nat
                 (BooleanLiteral true) (Print (BooleanLiteral false))
                 EmptyState [] (PyBool true) Boolean EmptyState []
                 (PyBool false) Boolean EmptyState [LineValue (PyBool false)]);
      reflexivity.
  - apply (proj2 (proj2 evaluate_And_Or_both_operands) 0%nat
                 (BooleanLiteral true) EmptyState [] (PyBool true)
                 EmptyState []); reflexivity.
Defined.

(** ** Assignment *)

(** C4: once the value expression has given [(v, t, st1)]: a name with
    no binding in [st1] is bound, whatever [t]; a name bound with a
    different tag raises [InterpTypeError]; a name bound with tag [t]
    is bound again.  On success the result is [v], [t] and [st1]
    extended with the binding, where the name then reads as [(v, t)]. *)
Theorem evaluate_Assign_cases fuel name e state out v t st1 out1 :
  evaluate fuel e state out = (Ok (v, t, st1), out1) ->
  let extended := set_value st1 name v t in
  (get_value st1 name = None ->
   evaluate fuel (Assign name e) state out = (Ok (v, t, extended), out1)) /\
  (forall v0 t0, get_value st1 name = Some (v0, t0) -> t0 <> t ->
   evaluate fuel (Assign name e) state out = (Raise InterpTypeError, out1)) /\
  (forall v0, get_value st1 name = Some (v0, t) ->
   evaluate fuel (Assign name e) state out = (Ok (v, t, extended), out1)) /\
  extended = StateNode name (v, t) st1 /\
  get_value extended name = Some (v, t) /\
  evaluate fuel (Variable_ name) extended out1 = (Ok (v, t, extended), out1).
Proof.
  intros He extended. split; [|split; [|split; [|split; [|split]]]].
  - intros Hget. cbn [evaluate]. rewrite (bind_ok _ _ _ _ _ He). cbn beta iota.
    unfold eval_Assign. now rewrite Hget.
  - intros v0 t0 Hget Hneq. cbn [evaluate]. rewrite (bind_ok _ _ _ _ _ He).
    cbn beta iota. unfold eval_Assign. rewrite Hget.
    assert (Hb : Type_eqb t t0 = false) by (apply Type_eqb_neq; congruence).
    now rewrite Hb.
  - intros v0 Hget. cbn [evaluate]. rewrite (bind_ok _ _ _ _ _ He).
    cbn beta iota. unfold eval_Assign. rewrite Hget.
    now rewrite Type_eqb_refl.
  - reflexivity.
  - apply get_value_set_value.
  - apply evaluate_Variable_bound, get_value_set_value.
Qed.

Lemma evaluate_Assign_cases_witness :
  let st1 := StateNode "x" (PyInt 1, Integer) EmptyState in
  evaluate 0 (Assign "y" (IntLiteral 2)) st1 []
  = (Ok (PyInt 2, Integer, set_value st1 "y" (PyInt 2) Integer), []) /\
  evaluate 0 (Assign "x" (StringLiteral "a")) st1 []
  = (Raise InterpTypeError, []) /\
  evaluate 0 (Assign "x" (IntLiteral 2)) st1 []
  = (Ok (PyInt 2, Integer, set_value st1 "x" (PyInt 2) Integer), []).
Proof.
  intros st1. split; [|split].
  - apply (proj1 (evaluate_Assign_cases 0 "y" (IntLiteral 2) st1 []
                    (PyInt 2) Integer st1 [] eq_refl)). reflexivity.
  - apply (proj1 (proj2 (evaluate_Assign_cases 0 "x" (StringLiteral "a") st1 []
                    (PyStr "a") String st1 [] eq_refl)) (PyInt 1) Integer).
    + reflexivity.
    + discriminate.
  - apply (proj1 (proj2 (proj2 (evaluate_Assign_cases 0 "x" (IntLiteral 2) st1 []
                    (PyInt 2) Integer st1 [] eq_refl))) (PyInt 1)). reflexivity.
Defined.

(** C10: a name bound to the unit value is not taken for an absent one:
    after [Assign(x, Ren)] has succeeded, reading [x] in the state it
    returned gives [(None, Unit)] and that same state. *)
Theorem evaluate_Variable_after_Assign_Ren fuel name state out v t state' out' :
  evaluate fuel (Assign name Ren) state out = (Ok (v, t, state'), out') ->
  forall fuel' out'',
    evaluate fuel' (Variable_ name) state' out''
    = (Ok (PyNone, Unit, state'), out'').
Proof.
  intros H. cbn [evaluate] in H.
  apply bind_ok_inv in H. destruct H as [[[v1 t1] s1] [o1 [Hren Hassign]]].
  injection Hren as <- <- <- <-.
  unfold eval_Assign in Hassign.
  intros fuel' out''. apply evaluate_Variable_bound.
  destruct (get_value state name) as [[v0 t0]|].
  - destruct (negb (Type_eqb Unit t0)); [discriminate|].
    injection Hassign as <- <- <- <-. apply get_value_set_value.
  - injection Hassign as <- <- <- <-. apply get_value_set_value.
Qed.

Lemma evaluate_Variable_after_Assign_Ren_witness :
  evaluate 0 (Variable_ "x") (StateNode "x" (PyNone, Unit) EmptyState) []
  = (Ok (PyNone, Unit, StateNode "x" (PyNone, Unit) EmptyState), []).
Proof.
  apply (evaluate_Variable_after_Assign_Ren 0 "x" EmptyState [] PyNone Unit
           (StateNode "x" (PyNone, Unit) EmptyState) [] eq_refl 0%nat []).
Defined.

(** ** Cases that neither write nor bind

    The operators, Not and Variable return the state they are given
    and write nothing. *)

Ltac frame_cases H :=
  unfold eval_Add, eval_Subtract, eval_Multiply, eval_Divide, eval_And,
    eval_Or, eval_Not, eval_compare in H;
  try match type of H with
      | context [negb (Type_eqb ?a ?b)] =>
          destruct (negb (Type_eqb a b)); [discriminate H|]
      end;
  try match type of H with
      | context [eq_zero ?a] => destruct (eq_zero a); [discriminate H|]
      end;
  match type of H with
  | context [match ?t with Unit => _ | _ => _ end] =>
      destruct t; try discriminate H
  end;
  try match type of H with
      | context [host ?o] => destruct o; try discriminate H
      end;
  injection H as <- <- <- <-; split; reflexivity.

Lemma eval_Add_frame lv lt rv rt st out v t s out' :
  eval_Add lv lt rv rt st out = (Ok (v, t, s), out') -> s = st /\ out' = out.
Proof. intros H. frame_cases H. Qed.

Lemma eval_Subtract_frame lv lt rv rt st out v t s out' :
  eval_Subtract lv lt rv rt st out = (Ok (v, t, s), out') -> s = st /\ out' = out.
Proof. intros H. frame_cases H. Qed.

Lemma eval_Multiply_frame lv lt rv rt st out v t s out' :
  eval_Multiply lv lt rv rt st out = (Ok (v, t, s), out') -> s = st /\ out' = out.
Proof. intros H. frame_cases H. Qed.

Lemma eval_Divide_frame lv lt rv rt st out v t s out' :
  eval_Divide lv lt rv rt st out = (Ok (v, t, s), out') -> s = st /\ out' = out.
Proof. intros H. frame_cases H. Qed.

Lemma eval_And_frame lv lt rv rt st out v t s out' :
  eval_And lv lt rv rt st out = (Ok (v, t, s), out') -> s = st /\ out' = out.
Proof. intros H. frame_cases H. Qed.

Lemma eval_Or_frame lv lt rv rt st out v t s out' :
  eval_Or lv lt rv rt st out = (Ok (v, t, s), out') -> s = st /\ out' = out.
Proof. intros H. frame_cases H. Qed.

Lemma eval_compare_frame op on_unit lv lt rv rt st out v t s out' :
  eval_compare op on_unit lv lt rv rt st out = (Ok (v, t, s), out') ->
  s = st /\ out' = out.
Proof. intros H. frame_cases H. Qed.

Lemma eval_Not_frame ev et st out v t s out' :
  eval_Not ev et st out = (Ok (v, t, s), out') -> s = st /\ out' = out.
Proof. intros H. frame_cases H. Qed.

Lemma eval_Variable_frame name st out v t s out' :
  eval_Variable name st out = (Ok (v, t, s), out') -> s = st /\ out' = out.
Proof.
  unfold eval_Variable. destruct (get_value st name) as [[v0 t0]|];
    [|discriminate].
  intros H. injection H as <- <- <- <-. now split.
Qed.

Lemma eval_Print_state pv pt st out v t s out' :
  eval_Print pv pt st out = (Ok (v, t, s), out') -> s = st.
Proof.
  unfold eval_Print. intros H. apply bind_ok_inv in H.
  destruct H as [[] [out1 [_ H]]]. now injection H as <- <- <- <-.
Qed.

Lemma eval_Assign_state name rv rt st out v t s out' :
  eval_Assign name rv rt st out = (Ok (v, t, s), out') ->
  s = set_value st name rv rt /\ out' = out.
Proof.
  unfold eval_Assign. destruct (get_value st name) as [[v0 t0]|].
  - destruct (negb (Type_eqb rt t0)); [discriminate|].
    intros H. injection H as <- <- <- <-. now split.
  - intros H. injection H as <- <- <- <-. now split.
Qed.

(** The frame lemma of whichever operator [H] is about. *)
Ltac frame_in H :=
  first [ apply eval_Add_frame in H | apply eval_Subtract_frame in H
        | apply eval_Multiply_frame in H | apply eval_Divide_frame in H
        | apply eval_And_frame in H | apply eval_Or_frame in H
        | apply eval_compare_frame in H | apply eval_Not_frame in H
        | apply eval_Variable_frame in H ].

(** Split a successful [bind] in [H] into its first part, named [Hm],
    and keep the rest in [H]. *)
Ltac inv_bind H Hm :=
  apply bind_ok_inv in H;
  let out1 := fresh "out" in
  destruct H as [[[? ?] ?] [out1 [Hm H]]];
  cbn beta iota in H.

(** ** The state only grows *)

Lemma extends_trans a b c : extends a b -> extends b c -> extends a c.
Proof. intros Hab Hbc. induction Hbc; [assumption | now constructor]. Qed.

Lemma extends_set_value state name v t :
  extends state (set_value state name v t).
Proof. unfold set_value. constructor. constructor. Qed.

Lemma extends_bindings old new :
  extends old new -> exists prefix, bindings new = prefix ++ bindings old.
Proof.
  induction 1 as [|name value new _ [prefix IH]].
  - now exists [].
  - exists ((name, value) :: prefix). simpl. now rewrite IH.
Qed.

Section Loops_extend.
Variable ev : Expr -> State -> M Result.

Lemma sequence_loop_extends exprs :
  Forall (fun e => forall state out v t state' out',
              ev e state out = (Ok (v, t, state'), out') ->
              extends state state') exprs ->
  forall fv ft state out v t state' out',
    sequence_loop ev exprs fv ft state out = (Ok (v, t, state'), out') ->
    extends state state'.
Proof.
  induction 1 as [|e rest He _ IH]; intros fv ft state out v t state' out' H;
    cbn [sequence_loop] in H.
  - injection H as <- <- <- <-. constructor.
  - inv_bind H Hm. eapply extends_trans; [eapply He | eapply IH]; eassumption.
Qed.

Variables ev_condition ev_body : State -> M Result.
Hypothesis condition_extends : forall state out v t state' out',
    ev_condition state out = (Ok (v, t, state'), out') -> extends state state'.
Hypothesis body_extends : forall state out v t state' out',
    ev_body state out = (Ok (v, t, state'), out') -> extends state state'.

Lemma while_loop_extends n :
  forall fv ft state out v t state' out',
    while_loop ev_condition ev_body n fv ft state out
    = (Ok (v, t, state'), out') ->
    extends state state'.
Proof.
  induction n as [|n IH]; intros fv ft state out v t state' out' H;
    cbn [while_loop] in H; inv_bind H Hc;
    match type of Hc with _ = (Ok (_, ?ct, _), _) => destruct ct end;
    try discriminate H;
    match type of H with context [truthy ?cv] => destruct (truthy cv) end;
    cbn [negb] in H.
  - discriminate H.
  - injection H as <- <- <- <-. constructor.
  - inv_bind H Hb.
    eapply extends_trans; [eapply condition_extends; eassumption|].
    eapply extends_trans; [eapply body_extends | eapply IH]; eassumption.
  - injection H as <- <- <- <-. constructor.
Qed.

End Loops_extend.

Lemma evaluate_extends fuel e :
  forall state out v t state' out',
    evaluate fuel e state out = (Ok (v, t, state'), out') ->
    extends state state'.
Proof.
  induction e using Expr_nested_ind; intros state out v t state' out' Hev;
    cbn [evaluate] in Hev;
    try (injection Hev as <- <- <- <-; constructor);
    try (inv_bind Hev Hl; inv_bind Hev Hr; frame_in Hev; destruct Hev as [-> ->];
         eapply extends_trans; [eapply IHe1 | eapply IHe2]; eassumption).
  - (* Print *)
    inv_bind Hev He. apply eval_Print_state in Hev. subst. eapply IHe; eassumption.
  - (* Sequence *)
    eapply sequence_loop_extends; eassumption.
  - (* Program *)
    eapply sequence_loop_extends; eassumption.
  - (* Variable *)
    frame_in Hev. destruct Hev as [-> _]. constructor.
  - (* Assign *)
    inv_bind Hev He. apply eval_Assign_state in Hev. destruct Hev as [-> _].
    eapply extends_trans; [eapply IHe; eassumption | apply extends_set_value].
  - (* Not *)
    inv_bind Hev He. frame_in Hev. destruct Hev as [-> _]. eapply IHe; eassumption.
  - (* If *)
    inv_bind Hev Hc.
    match type of Hc with _ = (Ok (_, ?ct, _), _) => destruct ct end;
      try discriminate Hev.
    eapply extends_trans; [eapply IHe1; eassumption|].
    match type of Hev with context [truthy ?cv] => destruct (truthy cv) end;
      [eapply IHe2 | eapply IHe3]; eassumption.
  - (* While *)
    eapply while_loop_extends; [exact IHe1 | exact IHe2 | eassumption].
  - (* Unhandled *)
    discriminate Hev.
Qed.

(** C7: when evaluation succeeds, the state it returns is the given
    state with nodes put in front of it: every node of the given chain
    is a node of the returned chain, with the same name, value, tag and
    next node, and the bindings of the given chain are a suffix of
    those of the returned one. *)
Theorem evaluate_state_persistent fuel e state out v t state' out' :
  evaluate fuel e state out = (Ok (v, t, state'), out') ->
  extends state state' /\
  exists prefix, bindings state' = prefix ++ bindings state.
Proof.
  intros H. apply evaluate_extends in H. split; [exact H|].
  now apply extends_bindings.
Qed.

Lemma evaluate_state_persistent_witness :
  let state := StateNode "x" (PyInt 0, Integer) EmptyState in
  let e := While (Lt (Variable_ "x") (IntLiteral 2))
                 (Assign "x" (Add (Variable_ "x") (IntLiteral 1))) in
  let state' := StateNode "x" (PyInt 2, Integer)
                  (StateNode "x" (PyInt 1, Integer) state) in
  extends state state' /\
  exists prefix, bindings state' = prefix ++ bindings state.
Proof.
  intros state e state'.
  apply (evaluate_state_persistent 2 e state [] (PyInt 2) Integer state' []).
  reflexivity.
Defined.

(** ** While *)

Section While_loop_facts.
Variables ev_condition ev_body : State -> M Result.

(** The check fails: the loop stops with the recorded triple. *)
Lemma while_loop_exit n fv ft current out cv new_state out1 :
  ev_condition current out = (Ok (cv, Boolean, new_state), out1) ->
  truthy cv = false ->
  while_loop ev_condition ev_body n fv ft current out
  = (Ok (fv, ft, current), out1).
Proof.
  intros Hc Hcv. destruct n; cbn [while_loop];
    rewrite (bind_ok _ _ _ _ _ Hc); cbn beta iota; now rewrite Hcv.
Qed.

(** The check holds and the body succeeds: its triple is recorded and
    the loop goes on from the state of the body. *)
Lemma while_loop_step n fv ft current out cv new_state out1 bv bt bs out2 :
  ev_condition current out = (Ok (cv, Boolean, new_state), out1) ->
  truthy cv = true ->
  ev_body new_state out1 = (Ok (bv, bt, bs), out2) ->
  while_loop ev_condition ev_body (S n) fv ft current out
  = while_loop ev_condition ev_body n bv bt bs out2.
Proof.
  intros Hc Hcv Hb. cbn [while_loop].
  rewrite (bind_ok _ _ _ _ _ Hc); cbn beta iota. rewrite Hcv. cbn [negb].
  now rewrite (bind_ok _ _ _ _ _ Hb).
Qed.

(** A loop that returns ended on a failed check made in the returned
    state; what it returns is the triple it started with, or the
    triple of a body evaluation that this check followed. *)
Lemma while_loop_ok_inv n :
  forall fv ft current out v t state' out',
    while_loop ev_condition ev_body n fv ft current out
    = (Ok (v, t, state'), out') ->
    exists cv checked out_b,
      ev_condition state' out_b = (Ok (cv, Boolean, checked), out') /\
      truthy cv = false /\
      ((v, t, state') = (fv, ft, current) /\ out_b = out \/
       exists before out_before cv_in entered out_in,
         ev_condition before out_before = (Ok (cv_in, Boolean, entered), out_in) /\
         truthy cv_in = true /\
         ev_body entered out_in = (Ok (v, t, state'), out_b)).
Proof.
  induction n as [|n IH]; intros fv ft current out v t state' out' H;
    cbn [while_loop] in H; inv_bind H Hc;
    match type of Hc with _ = (Ok (_, ?ct, _), _) => destruct ct end;
    try discriminate H;
    match type of H with context [truthy ?cv] =>
      destruct (truthy cv) eqn:Hcv end;
    cbn [negb] in H; try discriminate H.
  - injection H as <- <- <- <-. eauto 10.
  - inv_bind H Hb. apply IH in H.
    destruct H as [cv [checked [out_b [Hlast [Hfalse Hfrom]]]]].
    exists cv, checked, out_b. split; [exact Hlast|]. split; [exact Hfalse|].
    right. destruct Hfrom as [[Heq ->] | Hfrom]; [|exact Hfrom].
    injection Heq as -> -> ->. eauto 10.
  - injection H as <- <- <- <-. eauto 10.
Qed.

End While_loop_facts.

(** C3: a While whose first check gives Boolean false returns
    [(None, Unit, state)] with the given state, whatever the body is;
    a While whose first check holds and that returns, returns the
    triple of a body evaluation, entered after a check that held: the
    one its last, failed check followed, and not the state that check
    left.  The check of the
    example binds [y] each time it runs; the returned state lacks the
    binding made by the last check. *)
Theorem evaluate_While_result :
  (forall fuel condition body state out checked out1,
      evaluate fuel condition state out
      = (Ok (PyBool false, Boolean, checked), out1) ->
      evaluate fuel (While condition body) state out
      = (Ok (PyNone, Unit, state), out1)) /\
  (forall fuel condition body state out cv0 checked0 out0 v t state' out',
      evaluate fuel condition state out = (Ok (cv0, Boolean, checked0), out0) ->
      truthy cv0 = true ->
      evaluate fuel (While condition body) state out
      = (Ok (v, t, state'), out') ->
      exists before out_before cv_in entered out_in out_b cv checked,
        evaluate fuel condition before out_before
        = (Ok (cv_in, Boolean, entered), out_in) /\
        truthy cv_in = true /\
        evaluate fuel body entered out_in = (Ok (v, t, state'), out_b) /\
        evaluate fuel condition state' out_b = (Ok (cv, Boolean, checked), out') /\
        truthy cv = false) /\
  (forall fuel,
      let state := StateNode "x" (PyInt 0, Integer) EmptyState in
      let condition :=
        Sequence [Assign "y" (IntLiteral 7);
                  Lt (Variable_ "x") (IntLiteral 1)] in
      let body := Assign "x" (Add (Variable_ "x") (IntLiteral 1)) in
      evaluate (S fuel) (While condition body) state []
      = (Ok (PyInt 1, Integer,
             StateNode "x" (PyInt 1, Integer)
               (StateNode "y" (PyInt 7, Integer) state)), [])).
Proof.
  split; [|split].
  - intros fuel condition body state out checked out1 Hc.
    cbn [evaluate]. eapply while_loop_exit; [exact Hc | reflexivity].
  - intros fuel condition body state out cv0 checked0 out0 v t state' out'
           Hc0 Htrue H.
    cbn [evaluate] in H. apply while_loop_ok_inv in H.
    destruct H as [cv [checked [out_b [Hlast [Hfalse Hfrom]]]]].
    destruct Hfrom as [[Heq ->] | Hfrom].
    + injection Heq as _ _ ->. rewrite Hc0 in Hlast.
      injection Hlast as -> _ _. congruence.
    + destruct Hfrom as [before [out_before [cv_in [entered [out_in Hfrom]]]]].
      destruct Hfrom as [Hin [Htrue_in Hbody]].
      exists before, out_before, cv_in, entered, out_in, out_b, cv, checked.
      auto.
  - intros fuel state condition body. cbn [evaluate].
    erewrite while_loop_step by reflexivity.
    eapply while_loop_exit; reflexivity.
Qed.

Lemma evaluate_While_result_witness :
  evaluate 0 (While (BooleanLiteral false) Unhandled) EmptyState []
  = (Ok (PyNone, Unit, EmptyState), []) /\
  exists before out_before cv_in entered out_in out_b cv checked,
    evaluate 1 (Variable_ "x") before out_before
    = (Ok (cv_in, Boolean, entered), out_in) /\
    truthy cv_in = true /\
    evaluate 1 (Assign "x" (BooleanLiteral false)) entered out_in
    = (Ok (PyBool false, Boolean,
           StateNode "x" (PyBool false, Boolean)
             (StateNode "x" (PyBool true, Boolean) EmptyState)), out_b) /\
    evaluate 1 (Variable_ "x")
             (StateNode "x" (PyBool false, Boolean)
                (StateNode "x" (PyBool true, Boolean) EmptyState)) out_b
    = (Ok (cv, Boolean, checked), []) /\
    truthy cv = false.
Proof.
  split.
  - apply (proj1 evaluate_While_result 0%nat (BooleanLiteral false) Unhandled
                 EmptyState [] EmptyState []). reflexivity.
  - apply (proj1 (proj2 evaluate_While_result) 1%nat (Variable_ "x")
                 (Assign "x" (BooleanLiteral false))
                 (StateNode "x" (PyBool true, Boolean) EmptyState) []
                 (PyBool true)
                 (StateNode "x" (PyBool true, Boolean) EmptyState) []);
      reflexivity.
Defined.

(** ** More fuel changes no result *)

Lemma refines_refl {A} (m : M A) : refines m m.
Proof. intros out o out' H _. exact H. Qed.

Lemma refines_out_of_fuel {A} (m : M A) : refines out_of_fuel m.
Proof. intros out o out' H Hne. injection H as <- _. now contradiction Hne. Qed.

Lemma refines_bind {A B} (m1 m2 : M A) (k1 k2 : A -> M B) :
  refines m1 m2 -> (forall a, refines (k1 a) (k2 a)) ->
  refines (bind m1 k1) (bind m2 k2).
Proof.
  intros Hm Hk out o out' H Hne. unfold bind in *.
  destruct (m1 out) as [[a|e| |] out1] eqn:Hm1.
  - rewrite (Hm _ _ _ Hm1) by discriminate. now apply Hk.
  - rewrite (Hm _ _ _ Hm1) by discriminate. exact H.
  - rewrite (Hm _ _ _ Hm1) by discriminate. exact H.
  - injection H as <- _. now contradiction Hne.
Qed.

Lemma sequence_loop_refines (ev1 ev2 : Expr -> State -> M Result) exprs :
  Forall (fun e => forall state, refines (ev1 e state) (ev2 e state)) exprs ->
  forall fv ft state,
    refines (sequence_loop ev1 exprs fv ft state)
            (sequence_loop ev2 exprs fv ft state).
Proof.
  induction 1 as [|e rest He _ IH]; intros fv ft state; cbn [sequence_loop].
  - apply refines_refl.
  - apply refines_bind; [apply He|]. intros [[v t] s]. apply IH.
Qed.

Lemma while_loop_refines (c1 c2 b1 b2 : State -> M Result) :
  (forall state, refines (c1 state) (c2 state)) ->
  (forall state, refines (b1 state) (b2 state)) ->
  forall n m, (n <= m)%nat ->
  forall fv ft state,
    refines (while_loop c1 b1 n fv ft state) (while_loop c2 b2 m fv ft state).
Proof.
  intros Hc Hb. induction n as [|n IH]; intros m Hle fv ft state;
    destruct m as [|m]; try lia; cbn [while_loop];
    (apply refines_bind; [apply Hc|]); intros [[cv ct] ns];
    destruct ct; try apply refines_refl;
    destruct (negb (truthy cv)); try apply refines_refl;
    try apply refines_out_of_fuel.
  apply refines_bind; [apply Hb|]. intros [[v t] s]. apply IH. lia.
Qed.

(** An evaluation that stopped for another reason than lack of fuel
    stops in the same way with more fuel. *)
Lemma evaluate_fuel_mono e :
  forall n m, (n <= m)%nat ->
  forall state, refines (evaluate n e state) (evaluate m e state).
Proof.
  induction e using Expr_nested_ind; intros n m Hle state; cbn [evaluate];
    try apply refines_refl;
    try (apply refines_bind; [now apply IHe1|]; intros [[? ?] ?];
         apply refines_bind; [now apply IHe2|]; intros [[? ?] ?];
         apply refines_refl);
    try (apply refines_bind; [now apply IHe|]; intros [[? ?] ?];
         apply refines_refl).
  - (* Sequence *)
    apply sequence_loop_refines.
    eapply Forall_impl; [|eassumption]. cbn beta. intros e He st. now apply He.
  - (* Program *)
    apply sequence_loop_refines.
    eapply Forall_impl; [|eassumption]. cbn beta. intros e He st. now apply He.
  - (* If *)
    apply refines_bind; [now apply IHe1|]. intros [[cv ct] ns].
    destruct ct; try apply refines_refl.
    destruct (truthy cv); [now apply IHe2 | now apply IHe3].
  - (* While *)
    apply while_loop_refines; auto.
Qed.

(** Two evaluations that both return give the same result, whatever
    fuel each had. *)
Lemma evaluate_fuel_deterministic e n m state out r1 out1 r2 out2 :
  evaluate n e state out = (Ok r1, out1) ->
  evaluate m e state out = (Ok r2, out2) ->
  r1 = r2 /\ out1 = out2.
Proof.
  intros H1 H2.
  assert (Hneq : forall r : Result, Ok r <> OutOfFuel) by discriminate.
  pose proof (evaluate_fuel_mono e n (Nat.max n m) (Nat.le_max_l n m)
                                 state out _ _ H1 (Hneq r1)) as H1'.
  pose proof (evaluate_fuel_mono e m (Nat.max n m) (Nat.le_max_r n m)
                                 state out _ _ H2 (Hneq r2)) as H2'.
  rewrite H1' in H2'. now injection H2' as -> ->.
Qed.

(** ** Purity *)

Section Loops_pure.
Variable ev : Expr -> State -> M Result.

Lemma sequence_loop_frame exprs :
  Forall (fun e => pure e = true ->
                   forall state out v t state' out',
                     ev e state out = (Ok (v, t, state'), out') ->
                     state' = state /\ out' = out) exprs ->
  forallb pure exprs = true ->
  forall fv ft state out v t state' out',
    sequence_loop ev exprs fv ft state out = (Ok (v, t, state'), out') ->
    state' = state /\ out' = out.
Proof.
  induction 1 as [|e rest He _ IH]; intros Hpure fv ft state out v t state' out' H;
    cbn [sequence_loop] in H.
  - injection H as <- <- <- <-. now split.
  - cbn [forallb] in Hpure. apply andb_true_iff in Hpure.
    destruct Hpure as [Hpe Hprest].
    inv_bind H Hm. apply (He Hpe) in Hm. destruct Hm as [-> ->].
    eapply IH; eassumption.
Qed.

Variables ev_condition ev_body : State -> M Result.
Hypothesis condition_frame : forall state out v t state' out',
    ev_condition state out = (Ok (v, t, state'), out') ->
    state' = state /\ out' = out.
Hypothesis body_frame : forall state out v t state' out',
    ev_body state out = (Ok (v, t, state'), out') ->
    state' = state /\ out' = out.

Lemma while_loop_frame n :
  forall fv ft state out v t state' out',
    while_loop ev_condition ev_body n fv ft state out
    = (Ok (v, t, state'), out') ->
    state' = state /\ out' = out.
Proof.
  induction n as [|n IH]; intros fv ft state out v t state' out' H;
    cbn [while_loop] in H; inv_bind H Hc;
    apply condition_frame in Hc; destruct Hc as [-> ->];
    match type of H with context [match ?ct with Unit => _ | _ => _ end] =>
      destruct ct end;
    try discriminate H;
    match type of H with context [truthy ?cv] => destruct (truthy cv) end;
    cbn [negb] in H; try discriminate H.
  - injection H as <- <- <- <-. now split.
  - inv_bind H Hb. apply body_frame in Hb. destruct Hb as [-> ->].
    eapply IH; eassumption.
  - injection H as <- <- <- <-. now split.
Qed.

End Loops_pure.

Lemma evaluate_pure_frame fuel e :
  pure e = true ->
  forall state out v t state' out',
    evaluate fuel e state out = (Ok (v, t, state'), out') ->
    state' = state /\ out' = out.
Proof.
  induction e using Expr_nested_ind; intros Hpure state out v t state' out' Hev;
    cbn [pure] in Hpure; try discriminate Hpure;
    cbn [evaluate] in Hev;
    try (injection Hev as <- <- <- <-; now split);
    try (apply andb_true_iff in Hpure; destruct Hpure as [Hp1 Hp2];
         inv_bind Hev Hl; inv_bind Hev Hr; frame_in Hev;
         destruct Hev as [-> ->];
         apply (IHe1 Hp1) in Hl; destruct Hl as [-> ->];
         apply (IHe2 Hp2) in Hr; destruct Hr as [-> ->]; now split).
  - (* Sequence *)
    eapply sequence_loop_frame; eassumption.
  - (* Program *)
    eapply sequence_loop_frame; eassumption.
  - (* Variable *)
    now frame_in Hev.
  - (* Not *)
    inv_bind Hev He. frame_in Hev. destruct Hev as [-> ->].
    now apply (IHe Hpure) in He.
  - (* If *)
    apply andb_true_iff in Hpure. destruct Hpure as [Hpure Hp3].
    apply andb_true_iff in Hpure. destruct Hpure as [Hp1 Hp2].
    inv_bind Hev Hc. apply (IHe1 Hp1) in Hc. destruct Hc as [-> ->].
    match type of Hev with context [match ?ct with Unit => _ | _ => _ end] =>
      destruct ct end;
      try discriminate Hev.
    match type of Hev with context [truthy ?cv] => destruct (truthy cv) end;
      [eapply (IHe2 Hp2) | eapply (IHe3 Hp3)]; eassumption.
  - (* While *)
    apply andb_true_iff in Hpure. destruct Hpure as [Hp1 Hp2].
    eapply while_loop_frame; [apply (IHe1 Hp1) | apply (IHe2 Hp2) | eassumption].
  - (* Unhandled *)
    discriminate Hev.
Qed.

(** C9: for an expression with no Assign and no Print, an evaluation
    that returns leaves the state as it was (and writes nothing), so
    that a second evaluation is against the same state; evaluating
    again returns the same value and tag and, again, that state:
    with at least as much fuel it does return, and with any fuel it
    returns nothing else. *)
Theorem evaluate_pure_twice fuel e state out v t state' out' :
  pure e = true ->
  evaluate fuel e state out = (Ok (v, t, state'), out') ->
  state' = state /\ out' = out /\
  (forall fuel2, (fuel <= fuel2)%nat ->
     evaluate fuel2 e state' out' = (Ok (v, t, state), out)) /\
  (forall fuel2 v2 t2 state2 out2,
     evaluate fuel2 e state' out' = (Ok (v2, t2, state2), out2) ->
     (v2, t2) = (v, t) /\ state2 = state /\ out2 = out).
Proof.
  intros Hpure Hev.
  destruct (evaluate_pure_frame fuel e Hpure _ _ _ _ _ _ Hev) as [-> ->].
  split; [reflexivity|]. split; [reflexivity|]. split.
  - intros fuel2 Hle.
    apply (evaluate_fuel_mono e fuel fuel2 Hle state out _ _ Hev). discriminate.
  - intros fuel2 v2 t2 state2 out2 Hev2.
    destruct (evaluate_fuel_deterministic _ _ _ _ _ _ _ _ _ Hev Hev2) as [Heq <-].
    injection Heq as <- <- <-. auto.
Qed.

Lemma evaluate_pure_twice_witness :
  let state := StateNode "x" (PyInt 4, Integer) EmptyState in
  let e := If (Lt (Variable_ "x") (IntLiteral 5))
              (Multiply (Variable_ "x") (IntLiteral 2))
              (While (BooleanLiteral true) Ren) in
  state = state /\ @nil Line = [] /\
  (forall fuel2, (0 <= fuel2)%nat ->
     evaluate fuel2 e state [] = (Ok (PyInt 8, Integer, state), [])) /\
  (forall fuel2 v2 t2 state2 out2,
     evaluate fuel2 e state [] = (Ok (v2, t2, state2), out2) ->
     (v2, t2) = (PyInt 8, Integer) /\ state2 = state /\ out2 = []).
Proof.
  intros state e.
  apply (evaluate_pure_twice 0 e state [] (PyInt 8) Integer state []);
    reflexivity.
Defined.

(** ** Values keep the shape of their tag

    From a well-tagged state the host operators are only applied to
    operands of the shapes modelled above: no evaluation stops on
    [HostError]. *)

Lemma tagged_ret v t s : has_tag v t -> well_tagged s -> tagged (ret (v, t, s)).
Proof. intros Hv Hs out o out' H. injection H as <- _. now split. Qed.

Lemma tagged_raise e : tagged (raise e).
Proof. intros out o out' H. injection H as <- _. exact I. Qed.

Lemma tagged_out_of_fuel : tagged out_of_fuel.
Proof. intros out o out' H. injection H as <- _. exact I. Qed.

Lemma tagged_bind (m : M Result) (k : Result -> M Result) :
  tagged m ->
  (forall v t s, has_tag v t -> well_tagged s -> tagged (k (v, t, s))) ->
  tagged (bind m k).
Proof.
  intros Hm Hk out o out' H. unfold bind in H.
  destruct (m out) as [[[[v t] s]|e| |] out1] eqn:Hm1;
    pose proof (Hm _ _ _ Hm1) as Hpost; cbn beta iota in Hpost.
  - destruct Hpost as [Hv Hs]. exact (Hk v t s Hv Hs _ _ _ H).
  - injection H as <- _. exact I.
  - contradiction.
  - injection H as <- _. exact I.
Qed.

Lemma well_tagged_get_value state name v t :
  well_tagged state -> get_value state name = Some (v, t) -> has_tag v t.
Proof.
  induction state as [|n [v0 t0] next IH]; cbn [get_value well_tagged].
  - discriminate.
  - intros [Hv Hnext]. destruct (String.eqb n name).
    + intros H. now injection H as <- <-.
    + now apply IH.
Qed.

Lemma Type_eqb_true_eq a b : negb (Type_eqb a b) = false -> a = b.
Proof. rewrite negb_false_iff. apply Type_eqb_eq. Qed.

(** Operands of one tag, each of the shape of the tag. *)
Ltac same_tag_cases lt rt lv rv :=
  destruct (negb (Type_eqb lt rt)) eqn:Htag; [apply tagged_raise|];
  apply Type_eqb_true_eq in Htag; subst rt;
  destruct lt; try apply tagged_raise;
  destruct lv; try contradiction; destruct rv; try contradiction.

Lemma tagged_eval_Add lv lt rv rt s :
  has_tag lv lt -> has_tag rv rt -> well_tagged s ->
  tagged (eval_Add lv lt rv rt s).
Proof.
  intros Hl Hr Hs. unfold eval_Add. same_tag_cases lt rt lv rv;
    now apply tagged_ret.
Qed.

Lemma tagged_eval_Subtract lv lt rv rt s :
  has_tag lv lt -> has_tag rv rt -> well_tagged s ->
  tagged (eval_Subtract lv lt rv rt s).
Proof.
  intros Hl Hr Hs. unfold eval_Subtract. same_tag_cases lt rt lv rv;
    now apply tagged_ret.
Qed.

Lemma tagged_eval_Multiply lv lt rv rt s :
  has_tag lv lt -> has_tag rv rt -> well_tagged s ->
  tagged (eval_Multiply lv lt rv rt s).
Proof.
  intros Hl Hr Hs. unfold eval_Multiply. same_tag_cases lt rt lv rv;
    now apply tagged_ret.
Qed.

Lemma tagged_eval_Divide lv lt rv rt s :
  has_tag lv lt -> has_tag rv rt -> well_tagged s ->
  tagged (eval_Divide lv lt rv rt s).
Proof.
  intros Hl Hr Hs. unfold eval_Divide. same_tag_cases lt rt lv rv;
    cbn [eq_zero py_floordiv py_truediv];
    try match goal with
        | |- context [if ?b then _ else _] => destruct b
        end;
    first [ apply tagged_raise
          | intros out o out' H; injection H as <- _; now split ].
Qed.

Lemma tagged_eval_And lv lt rv rt s :
  has_tag lv lt -> has_tag rv rt -> well_tagged s ->
  tagged (eval_And lv lt rv rt s).
Proof.
  intros Hl Hr Hs. unfold eval_And. same_tag_cases lt rt lv rv.
  apply tagged_ret; [|exact Hs]. unfold py_and. now destruct (truthy _).
Qed.

Lemma tagged_eval_Or lv lt rv rt s :
  has_tag lv lt -> has_tag rv rt -> well_tagged s ->
  tagged (eval_Or lv lt rv rt s).
Proof.
  intros Hl Hr Hs. unfold eval_Or. same_tag_cases lt rt lv rv.
  apply tagged_ret; [|exact Hs]. unfold py_or. now destruct (truthy _).
Qed.

Lemma tagged_eval_Not v t s :
  has_tag v t -> well_tagged s -> tagged (eval_Not v t s).
Proof.
  intros Hv Hs. unfold eval_Not. destruct t; try apply tagged_raise.
  now apply tagged_ret.
Qed.

Lemma tagged_eval_compare op on_unit lv lt rv rt s :
  (forall a b t, has_tag a t -> has_tag b t -> t <> Unit -> op a b <> None) ->
  has_tag lv lt -> has_tag rv rt -> well_tagged s ->
  tagged (eval_compare op on_unit lv lt rv rt s).
Proof.
  intros Hop Hl Hr Hs. unfold eval_compare.
  destruct (negb (Type_eqb lt rt)) eqn:Htag; [apply tagged_raise|].
  apply Type_eqb_true_eq in Htag; subst rt.
  destruct lt; try (now apply tagged_ret);
    (destruct (op lv rv) as [b|] eqn:Hb;
     [now apply tagged_ret
     | exfalso; refine (Hop lv rv _ Hl Hr _ Hb); discriminate]).
Qed.

Ltac host_comparison :=
  intros a b t Ha Hb Ht; destruct t; try contradiction;
  destruct a; try contradiction; destruct b; try contradiction; discriminate.

Lemma py_lt_defined a b t :
  has_tag a t -> has_tag b t -> t <> Unit -> py_lt a b <> None.
Proof. revert a b t. host_comparison. Qed.

Lemma py_le_defined a b t :
  has_tag a t -> has_tag b t -> t <> Unit -> py_le a b <> None.
Proof. revert a b t. host_comparison. Qed.

Lemma py_gt_defined a b t :
  has_tag a t -> has_tag b t -> t <> Unit -> py_gt a b <> None.
Proof. revert a b t. host_comparison. Qed.

Lemma py_ge_defined a b t :
  has_tag a t -> has_tag b t -> t <> Unit -> py_ge a b <> None.
Proof. revert a b t. host_comparison. Qed.

Lemma py_eq_defined a b t :
  has_tag a t -> has_tag b t -> t <> Unit -> py_eq a b <> None.
Proof. revert a b t. host_comparison. Qed.

Lemma py_ne_defined a b t :
  has_tag a t -> has_tag b t -> t <> Unit -> py_ne a b <> None.
Proof. revert a b t. host_comparison. Qed.

Lemma tagged_eval_Variable name s :
  well_tagged s -> tagged (eval_Variable name s).
Proof.
  intros Hs. unfold eval_Variable.
  destruct (get_value s name) as [[v t]|] eqn:Hget; [|apply tagged_raise].
  apply tagged_ret; [|exact Hs]. eapply well_tagged_get_value; eassumption.
Qed.

Lemma tagged_eval_Assign name v t s :
  has_tag v t -> well_tagged s -> tagged (eval_Assign name v t s).
Proof.
  intros Hv Hs. unfold eval_Assign.
  destruct (get_value s name) as [[v0 t0]|].
  - destruct (negb (Type_eqb t t0)); [apply tagged_raise|].
    apply tagged_ret; cbn; auto.
  - apply tagged_ret; cbn; auto.
Qed.

Lemma tagged_eval_Print v t s :
  has_tag v t -> well_tagged s -> tagged (eval_Print v t s).
Proof.
  intros Hv Hs out o out' H. unfold eval_Print, bind, print, ret in H.
  destruct t; injection H as <- _; now split.
Qed.

Lemma tagged_sequence_loop (ev : Expr -> State -> M Result) exprs :
  Forall (fun e => forall s, well_tagged s -> tagged (ev e s)) exprs ->
  forall fv ft s, has_tag fv ft -> well_tagged s ->
                  tagged (sequence_loop ev exprs fv ft s).
Proof.
  induction 1 as [|e rest He _ IH]; intros fv ft s Hv Hs; cbn [sequence_loop].
  - now apply tagged_ret.
  - apply tagged_bind; [now apply He|]. intros v t s' Hv' Hs'. now apply IH.
Qed.

Lemma tagged_while_loop (ev_condition ev_body : State -> M Result) :
  (forall s, well_tagged s -> tagged (ev_condition s)) ->
  (forall s, well_tagged s -> tagged (ev_body s)) ->
  forall n fv ft s, has_tag fv ft -> well_tagged s ->
                    tagged (while_loop ev_condition ev_body n fv ft s).
Proof.
  intros Hc Hb. induction n as [|n IH]; intros fv ft s Hv Hs;
    cbn [while_loop]; (apply tagged_bind; [now apply Hc|]);
    intros cv ct ns Hcv Hns; destruct ct; try apply tagged_raise;
    destruct (negb (truthy cv)); try (now apply tagged_ret).
  - apply tagged_out_of_fuel.
  - apply tagged_bind; [now apply Hb|]. intros v t s' Hv' Hs'. now apply IH.
Qed.

Lemma evaluate_tagged fuel e :
  forall state, well_tagged state -> tagged (evaluate fuel e state).
Proof.
  induction e using Expr_nested_ind; intros state Hs; cbn [evaluate];
    try (apply tagged_ret; [exact I | exact Hs]);
    try (apply tagged_bind; [now apply IHe1|]; intros lv lt s1 Hl Hs1;
         apply tagged_bind; [now apply IHe2|]; intros rv rt s2 Hr Hs2;
         first [ now apply tagged_eval_Add | now apply tagged_eval_Subtract
               | now apply tagged_eval_Multiply | now apply tagged_eval_Divide
               | now apply tagged_eval_And | now apply tagged_eval_Or
               | apply tagged_eval_compare; auto;
                 first [ exact py_lt_defined | exact py_le_defined
                       | exact py_gt_defined | exact py_ge_defined
                       | exact py_eq_defined | exact py_ne_defined ] ]).
  - (* Print *)
    apply tagged_bind; [now apply IHe|]. intros v t s Hv Hs'.
    now apply tagged_eval_Print.
  - (* Sequence *)
    now apply tagged_sequence_loop.
  - (* Program *)
    now apply tagged_sequence_loop.
  - (* Variable *)
    now apply tagged_eval_Variable.
  - (* Assign *)
    apply tagged_bind; [now apply IHe|]. intros v t s Hv Hs'.
    now apply tagged_eval_Assign.
  - (* Not *)
    apply tagged_bind; [now apply IHe|]. intros v t s Hv Hs'.
    now apply tagged_eval_Not.
  - (* If *)
    apply tagged_bind; [now apply IHe1|]. intros cv ct s Hv Hs'.
    destruct ct; try apply tagged_raise.
    destruct (truthy cv); [now apply IHe2 | now apply IHe3].
  - (* While *)
    now apply tagged_while_loop.
  - (* Unhandled *)
    apply tagged_raise.
Qed.

(** No run of a program stops on an error of the host. *)
Lemma evaluate_no_host_error fuel e state out out' :
  well_tagged state -> evaluate fuel e state out <> (HostError, out').
Proof.
  intros Hs H. exact (evaluate_tagged fuel e state Hs _ _ _ H).
Qed.

Lemma run_stimpl_no_host_error fuel program out' :
  run_stimpl fuel program <> (HostError, out').
Proof. apply evaluate_no_host_error. exact I. Qed.

(** * Further properties of the runtime *)

(** ** Lookup in the chain *)

(** X1: [get_value] answers [None] exactly for the names that no node of
    the chain binds. *)
Theorem get_value_None_iff state name :
  get_value state name = None <-> ~ In name (map fst (bindings state)).
Proof.
  induction state as [|n value next IH]; cbn [get_value bindings map fst In].
  - split; [intros _ [] | reflexivity].
  - destruct (String.eqb_spec n name) as [Heq|Hneq].
    + split; [discriminate | intros H; exfalso; apply H; now left].
    + rewrite IH. split.
      * intros H [Hin|Hin]; [contradiction | now apply H].
      * intros H Hin. apply H. now right.
Qed.

(** X2: [get_value] answers with the binding of the first node of that
    name, counted from the head: later bindings shadow earlier ones,
    which stay in the chain. *)
Theorem get_value_first_match state name value :
  get_value state name = Some value <->
  exists before after,
    bindings state = before ++ (name, value) :: after /\
    ~ In name (map fst before).
Proof.
  induction state as [|n v0 next IH]; cbn [get_value bindings].
  - split; [discriminate|].
    intros [before [after [H _]]]. now destruct before.
  - destruct (String.eqb_spec n name) as [Heq|Hneq].
    + subst n. split.
      * intros H. injection H as ->. exists [], (bindings next). now split.
      * intros [before [after [H Hnot]]]. destruct before as [|[n1 v1] before].
        -- now injection H as ->.
        -- injection H as -> -> _. exfalso. apply Hnot. now left.
    + rewrite IH. split.
      * intros [before [after [H Hnot]]].
        exists ((n, v0) :: before), after. cbn [app map fst In]. split.
        -- now rewrite H.
        -- intros [Hin|Hin]; [contradiction | now apply Hnot].
      * intros [before [after [H Hnot]]]. destruct before as [|[n1 v1] before].
        -- injection H as -> _. contradiction.
        -- injection H as _ _ H. exists before, after. split; [exact H|].
           intros Hin. apply Hnot. now right.
Qed.

(** ** Names stay bound, with their tag *)

Lemma keeps_tags_refl state : keeps_tags state state.
Proof. intros name v t H. eauto. Qed.

Lemma keeps_tags_trans a b c : keeps_tags a b -> keeps_tags b c -> keeps_tags a c.
Proof.
  intros Hab Hbc name v t H. destruct (Hab _ _ _ H) as [v' H'].
  exact (Hbc _ _ _ H').
Qed.

Lemma eval_Assign_keeps_tags name rv rt st out v t s out' :
  eval_Assign name rv rt st out = (Ok (v, t, s), out') -> keeps_tags st s.
Proof.
  unfold eval_Assign. intros H other v0 t0 Hget.
  destruct (get_value st name) as [[v1 t1]|] eqn:Hname.
  - destruct (Type_eqb rt t1) eqn:Htag; [|discriminate H]. cbn [negb] in H.
    apply Type_eqb_eq in Htag. subst t1.
    injection H as <- <- <- <-. cbn [set_value get_value].
    destruct (String.eqb_spec name other) as [->|Hneq]; [|eauto].
    rewrite Hname in Hget. injection Hget as <- <-. eauto.
  - injection H as <- <- <- <-. cbn [set_value get_value].
    destruct (String.eqb_spec name other) as [->|Hneq]; [|eauto].
    congruence.
Qed.

Lemma sequence_loop_keeps_tags (ev : Expr -> State -> M Result) exprs :
  Forall (fun e => forall state out v t state' out',
              ev e state out = (Ok (v, t, state'), out') ->
              keeps_tags state state') exprs ->
  forall fv ft state out v t state' out',
    sequence_loop ev exprs fv ft state out = (Ok (v, t, state'), out') ->
    keeps_tags state state'.
Proof.
  induction 1 as [|e rest He _ IH]; intros fv ft state out v t state' out' H;
    cbn [sequence_loop] in H.
  - injection H as <- <- <- <-. apply keeps_tags_refl.
  - inv_bind H Hm. eapply keeps_tags_trans; [eapply He | eapply IH]; eassumption.
Qed.

Lemma while_loop_keeps_tags (ev_condition ev_body : State -> M Result) :
  (forall state out v t state' out',
      ev_condition state out = (Ok (v, t, state'), out') ->
      keeps_tags state state') ->
  (forall state out v t state' out',
      ev_body state out = (Ok (v, t, state'), out') ->
      keeps_tags state state') ->
  forall n fv ft state out v t state' out',
    while_loop ev_condition ev_body n fv ft state out
    = (Ok (v, t, state'), out') ->
    keeps_tags state state'.
Proof.
  intros Hcond Hbody.
  induction n as [|n IH]; intros fv ft state out v t state' out' H;
    cbn [while_loop] in H; inv_bind H Hc;
    match type of Hc with _ = (Ok (_, ?ct, _), _) => destruct ct end;
    try discriminate H;
    match type of H with context [truthy ?cv] => destruct (truthy cv) end;
    cbn [negb] in H.
  - discriminate H.
  - injection H as <- <- <- <-. apply keeps_tags_refl.
  - inv_bind H Hb.
    eapply keeps_tags_trans; [eapply Hcond; eassumption|].
    eapply keeps_tags_trans; [eapply Hbody | eapply IH]; eassumption.
  - injection H as <- <- <- <-. apply keeps_tags_refl.
Qed.

Lemma evaluate_keeps_tags_all fuel e :
  forall state out v t state' out',
    evaluate fuel e state out = (Ok (v, t, state'), out') ->
    keeps_tags state state'.
Proof.
  induction e using Expr_nested_ind; intros state out v t state' out' Hev;
    cbn [evaluate] in Hev;
    try (injection Hev as <- <- <- <-; apply keeps_tags_refl);
    try (inv_bind Hev Hl; inv_bind Hev Hr; frame_in Hev; destruct Hev as [-> ->];
         eapply keeps_tags_trans; [eapply IHe1 | eapply IHe2]; eassumption).
  - (* Print *)
    inv_bind Hev He. apply eval_Print_state in Hev. subst.
    eapply IHe; eassumption.
  - (* Sequence *)
    eapply sequence_loop_keeps_tags; eassumption.
  - (* Program *)
    eapply sequence_loop_keeps_tags; eassumption.
  - (* Variable *)
    frame_in Hev. destruct Hev as [-> _]. apply keeps_tags_refl.
  - (* Assign *)
    inv_bind Hev He. apply eval_Assign_keeps_tags in Hev.
    eapply keeps_tags_trans; [eapply IHe; eassumption | exact Hev].
  - (* Not *)
    inv_bind Hev He. frame_in Hev. destruct Hev as [-> _].
    eapply IHe; eassumption.
  - (* If *)
    inv_bind Hev Hc.
    match type of Hc with _ = (Ok (_, ?ct, _), _) => destruct ct end;
      try discriminate Hev.
    eapply keeps_tags_trans; [eapply IHe1; eassumption|].
    match type of Hev with context [truthy ?cv] => destruct (truthy cv) end;
      [eapply IHe2 | eapply IHe3]; eassumption.
  - (* While *)
    eapply while_loop_keeps_tags; [exact IHe1 | exact IHe2 | eassumption].
  - (* Unhandled *)
    discriminate Hev.
Qed.

(** X3: A name bound when evaluation starts is bound when it returns, and
    with the same tag: no expression unbinds a name, and an Assign
    that would change a tag raises instead. *)
Theorem evaluate_keeps_tags fuel e state out v t state' out' name v0 t0 :
  evaluate fuel e state out = (Ok (v, t, state'), out') ->
  get_value state name = Some (v0, t0) ->
  exists v1, get_value state' name = Some (v1, t0).
Proof.
  intros Hev Hget. exact (evaluate_keeps_tags_all fuel e _ _ _ _ _ _ Hev _ _ _ Hget).
Qed.

Lemma evaluate_keeps_tags_witness :
  exists v1,
    get_value (StateNode "x" (PyInt 3, Integer)
                 (StateNode "y" (PyStr "a", String)
                    (StateNode "x" (PyInt 2, Integer) EmptyState))) "x"
    = Some (v1, Integer).
Proof.
  apply (evaluate_keeps_tags 0
           (Sequence [Assign "y" (StringLiteral "a");
                      Assign "x" (Add (Variable_ "x") (IntLiteral 1))])
           (StateNode "x" (PyInt 2, Integer) EmptyState) []
           (PyInt 3) Integer _ [] "x" (PyInt 2) Integer); reflexivity.
Defined.

(** ** Sequence and Program *)

Lemma sequence_loop_app_ok (ev : Expr -> State -> M Result) xs ys :
  forall fv ft state out v t s1 out1,
    sequence_loop ev xs fv ft state out = (Ok (v, t, s1), out1) ->
    sequence_loop ev (xs ++ ys) fv ft state out = sequence_loop ev ys v t s1 out1.
Proof.
  induction xs as [|x xs IH]; intros fv ft state out v t s1 out1 H;
    cbn [app sequence_loop] in *.
  - now injection H as <- <- <- <-.
  - inv_bind H Hx. rewrite (bind_ok _ _ _ _ _ Hx). cbn beta iota.
    now apply IH.
Qed.

Lemma sequence_loop_app_raise (ev : Expr -> State -> M Result) xs ys :
  forall fv ft state out e out1,
    sequence_loop ev xs fv ft state out = (Raise e, out1) ->
    sequence_loop ev (xs ++ ys) fv ft state out = (Raise e, out1).
Proof.
  induction xs as [|x xs IH]; intros fv ft state out e out1 H;
    cbn [app sequence_loop] in *.
  - discriminate H.
  - unfold bind in *. destruct (ev x state out) as [[[[v t] s]|e0| |] out0];
      try discriminate H; [|exact H].
    now apply IH.
Qed.

(** X4: A sequence split in two runs its first part, then its second part
    in the state and after the output of the first; with a second part
    that is not empty the value and tag are those of the second part.
    An error raised in the first part is the error of the whole, and
    nothing of the second part runs.  Program evaluates as Sequence. *)
Theorem evaluate_Sequence_app fuel xs ys state out :
  (forall v t s1 out1,
      evaluate fuel (Sequence xs) state out = (Ok (v, t, s1), out1) ->
      ys <> [] ->
      evaluate fuel (Sequence (xs ++ ys)) state out
      = evaluate fuel (Sequence ys) s1 out1) /\
  (forall e out1,
      evaluate fuel (Sequence xs) state out = (Raise e, out1) ->
      evaluate fuel (Sequence (xs ++ ys)) state out = (Raise e, out1)) /\
  evaluate fuel (Program (xs ++ ys)) state out
  = evaluate fuel (Sequence (xs ++ ys)) state out.
Proof.
  split; [|split; [|reflexivity]].
  - intros v t s1 out1 H Hys. cbn [evaluate] in *.
    rewrite (sequence_loop_app_ok _ _ ys _ _ _ _ _ _ _ _ H).
    destruct ys as [|y ys]; [contradiction|]. reflexivity.
  - intros e out1 H. cbn [evaluate] in *.
    now apply sequence_loop_app_raise.
Qed.

Lemma evaluate_Sequence_app_witness :
  evaluate 0 (Sequence ([Assign "x" (IntLiteral 1)] ++ [Variable_ "x"]))
           EmptyState []
  = evaluate 0 (Sequence [Variable_ "x"])
             (StateNode "x" (PyInt 1, Integer) EmptyState) [] /\
  evaluate 0 (Sequence ([Variable_ "x"] ++ [Print (IntLiteral 1)])) EmptyState []
  = (Raise InterpSyntaxError, []).
Proof.
  split.
  - apply (proj1 (evaluate_Sequence_app 0 [Assign "x" (IntLiteral 1)]
                    [Variable_ "x"] EmptyState []) (PyInt 1) Integer
                 (StateNode "x" (PyInt 1, Integer) EmptyState) []);
      [reflexivity | discriminate].
  - apply (proj1 (proj2 (evaluate_Sequence_app 0 [Variable_ "x"]
                    [Print (IntLiteral 1)] EmptyState [])) InterpSyntaxError []).
    reflexivity.
Defined.

(** ** The output stream *)

Lemma appends_ret {A} (a : A) : appends (ret a).
Proof. intros out. cbn. now rewrite app_nil_r. Qed.

Lemma appends_raise {A} e : appends (@raise A e).
Proof. intros out. cbn. now rewrite app_nil_r. Qed.

Lemma appends_host_error {A} : appends (@host_error A).
Proof. intros out. cbn. now rewrite app_nil_r. Qed.

Lemma appends_out_of_fuel {A} : appends (@out_of_fuel A).
Proof. intros out. cbn. now rewrite app_nil_r. Qed.

Lemma appends_print l : appends (print l).
Proof. intros out. reflexivity. Qed.

Lemma appends_host {A} (o : option A) : appends (host o).
Proof. destruct o; [apply appends_ret | apply appends_host_error]. Qed.

Lemma appends_bind {A B} (m : M A) (k : A -> M B) :
  appends m -> (forall a, appends (k a)) -> appends (bind m k).
Proof.
  intros Hm Hk out. unfold bind. rewrite (Hm out).
  destruct (m []) as [[a|e| |] w]; cbn [fst snd]; try reflexivity.
  rewrite (Hk a (out ++ w)), (Hk a w). cbn [fst snd].
  now rewrite app_assoc.
Qed.

Ltac appends_op :=
  repeat first
    [ apply appends_ret | apply appends_raise | apply appends_print
    | apply appends_host | apply appends_out_of_fuel
    | apply appends_bind; [|intros ?]
    | match goal with
      | |- appends (if ?b then _ else _) => destruct b
      | |- appends (match ?x with _ => _ end) => destruct x
      end ].

Lemma appends_binary_op lv lt rv rt s :
  appends (eval_Add lv lt rv rt s) /\ appends (eval_Subtract lv lt rv rt s) /\
  appends (eval_Multiply lv lt rv rt s) /\ appends (eval_Divide lv lt rv rt s) /\
  appends (eval_And lv lt rv rt s) /\ appends (eval_Or lv lt rv rt s) /\
  forall op on_unit, appends (eval_compare op on_unit lv lt rv rt s).
Proof.
  unfold eval_Add, eval_Subtract, eval_Multiply, eval_Divide, eval_And,
    eval_Or, eval_compare.
  repeat split; intros; appends_op.
Qed.

Lemma appends_sequence_loop (ev : Expr -> State -> M Result) exprs :
  Forall (fun e => forall state, appends (ev e state)) exprs ->
  forall fv ft state, appends (sequence_loop ev exprs fv ft state).
Proof.
  induction 1 as [|e rest He _ IH]; intros fv ft state; cbn [sequence_loop].
  - apply appends_ret.
  - apply appends_bind; [apply He|]. intros [[v t] s]. apply IH.
Qed.

Lemma appends_while_loop (ev_condition ev_body : State -> M Result) :
  (forall state, appends (ev_condition state)) ->
  (forall state, appends (ev_body state)) ->
  forall n fv ft state, appends (while_loop ev_condition ev_body n fv ft state).
Proof.
  intros Hc Hb. induction n as [|n IH]; intros fv ft state; cbn [while_loop];
    (apply appends_bind; [apply Hc|]); intros [[cv ct] ns];
    destruct ct; try apply appends_raise;
    destruct (negb (truthy cv)); try apply appends_ret.
  - apply appends_out_of_fuel.
  - apply appends_bind; [apply Hb|]. intros [[v t] s]. apply IH.
Qed.

Lemma evaluate_appends fuel e : forall state, appends (evaluate fuel e state).
Proof.
  induction e using Expr_nested_ind; intros state; cbn [evaluate];
    try apply appends_ret;
    try (apply appends_bind; [apply IHe1|]; intros [[lv lt] s1];
         apply appends_bind; [apply IHe2|]; intros [[rv rt] s2];
         apply appends_binary_op).
  - (* Print *)
    apply appends_bind; [apply IHe|]. intros [[v t] s].
    unfold eval_Print. appends_op.
  - (* Sequence *)
    now apply appends_sequence_loop.
  - (* Program *)
    now apply appends_sequence_loop.
  - (* Variable *)
    unfold eval_Variable. appends_op.
  - (* Assign *)
    apply appends_bind; [apply IHe|]. intros [[v t] s].
    unfold eval_Assign. appends_op.
  - (* Not *)
    apply appends_bind; [apply IHe|]. intros [[v t] s].
    unfold eval_Not. appends_op.
  - (* If *)
    apply appends_bind; [apply IHe1|]. intros [[cv ct] s].
    destruct ct; try apply appends_raise.
    destruct (truthy cv); [apply IHe2 | apply IHe3].
  - (* While *)
    now apply appends_while_loop.
  - (* Unhandled *)
    apply appends_raise.
Qed.

(** X5: Evaluation never removes or changes a line already written, and
    what was written before has no influence on it: started after any
    output, it stops in the same way as started after none, having
    added the same lines; this holds for failing runs too. *)
Theorem evaluate_output_appended fuel e state out :
  evaluate fuel e state out
  = (fst (evaluate fuel e state []), out ++ snd (evaluate fuel e state [])).
Proof. apply evaluate_appends. Qed.

(** ** The discipline shared by the binary operators *)

Ltac each_binary_operator Hin :=
  cbn [binary_operators In] in Hin;
  repeat (destruct Hin as [<-|Hin]); [..|contradiction].

(** X6: For each of the twelve binary forms: an error raised by the left
    operand is raised at once and the right operand is not evaluated;
    an error raised by the right operand is raised whatever the left
    operand gave; operands of two different tags raise
    [InterpTypeError], after both have been evaluated. *)
Theorem binary_operator_discipline op :
  In op binary_operators ->
  forall fuel l r state out,
    (forall e out1,
        evaluate fuel l state out = (Raise e, out1) ->
        evaluate fuel (op l r) state out = (Raise e, out1)) /\
    (forall lv lt st1 out1 e out2,
        evaluate fuel l state out = (Ok (lv, lt, st1), out1) ->
        evaluate fuel r st1 out1 = (Raise e, out2) ->
        evaluate fuel (op l r) state out = (Raise e, out2)) /\
    (forall lv lt st1 out1 rv rt st2 out2,
        evaluate fuel l state out = (Ok (lv, lt, st1), out1) ->
        evaluate fuel r st1 out1 = (Ok (rv, rt, st2), out2) ->
        lt <> rt ->
        evaluate fuel (op l r) state out = (Raise InterpTypeError, out2)).
Proof.
  intros Hin fuel l r state out.
  each_binary_operator Hin; (split; [|split]).
  all: try (intros e out1 Hl; cbn [evaluate];
            now rewrite (bind_raise _ _ _ _ _ Hl)).
  all: try (intros lv lt st1 out1 e out2 Hl Hr; cbn [evaluate];
            rewrite (bind_ok _ _ _ _ _ Hl); cbn beta iota;
            now rewrite (bind_raise _ _ _ _ _ Hr)).
  all: intros lv lt st1 out1 rv rt st2 out2 Hl Hr Hneq;
    eval_operands Hl Hr;
    unfold eval_Add, eval_Subtract, eval_Multiply, eval_Divide, eval_And,
      eval_Or, eval_Lt, eval_Lte, eval_Gt, eval_Gte, eval_Eq, eval_Ne,
      eval_compare;
    apply Type_eqb_neq in Hneq; now rewrite Hneq.
Qed.

Lemma binary_operator_discipline_witness :
  evaluate 0 (Divide (IntLiteral 5) (FloatingPointLiteral 0.0)) EmptyState []
  = (Raise InterpTypeError, []) /\
  evaluate 0 (Add (Variable_ "x") (Print (IntLiteral 1))) EmptyState []
  = (Raise InterpSyntaxError, []).
Proof.
  split.
  - apply (proj2 (proj2 (binary_operator_discipline Divide
                   (or_intror (or_intror (or_intror (or_introl eq_refl))))
                   0%nat (IntLiteral 5) (FloatingPointLiteral 0.0)
                   EmptyState []))
                 (PyInt 5) Integer EmptyState []
                 (PyFloat 0.0) FloatingPoint EmptyState []);
      [reflexivity | reflexivity | discriminate].
  - apply (proj1 (binary_operator_discipline Add (or_introl eq_refl)
                   0%nat (Variable_ "x") (Print (IntLiteral 1)) EmptyState [])
                 InterpSyntaxError []). reflexivity.
Defined.

(** ** Arithmetic *)

(** X7: On two Integer operands Add, Subtract and Multiply give the sum,
    the difference and the product, unbounded; on two String operands
    Add gives the concatenation, while Subtract and Multiply raise
    [InterpTypeError]; on two Boolean or two Unit operands all three
    raise [InterpTypeError]. *)
Theorem evaluate_arithmetic_tags fuel l r state out st1 out1 st2 out2 :
  (forall a b,
      evaluate fuel l state out = (Ok (PyInt a, Integer, st1), out1) ->
      evaluate fuel r st1 out1 = (Ok (PyInt b, Integer, st2), out2) ->
      evaluate fuel (Add l r) state out = (Ok (PyInt (a + b), Integer, st2), out2) /\
      evaluate fuel (Subtract l r) state out = (Ok (PyInt (a - b), Integer, st2), out2) /\
      evaluate fuel (Multiply l r) state out = (Ok (PyInt (a * b), Integer, st2), out2)) /\
  (forall a b,
      evaluate fuel l state out = (Ok (PyStr a, String, st1), out1) ->
      evaluate fuel r st1 out1 = (Ok (PyStr b, String, st2), out2) ->
      evaluate fuel (Add l r) state out = (Ok (PyStr (a ++ b), String, st2), out2)) /\
  (forall lv rv,
      evaluate fuel l state out = (Ok (lv, String, st1), out1) ->
      evaluate fuel r st1 out1 = (Ok (rv, String, st2), out2) ->
      evaluate fuel (Subtract l r) state out = (Raise InterpTypeError, out2) /\
      evaluate fuel (Multiply l r) state out = (Raise InterpTypeError, out2)) /\
  (forall lv rv tag,
      tag = Boolean \/ tag = Unit ->
      evaluate fuel l state out = (Ok (lv, tag, st1), out1) ->
      evaluate fuel r st1 out1 = (Ok (rv, tag, st2), out2) ->
      evaluate fuel (Add l r) state out = (Raise InterpTypeError, out2) /\
      evaluate fuel (Subtract l r) state out = (Raise InterpTypeError, out2) /\
      evaluate fuel (Multiply l r) state out = (Raise InterpTypeError, out2)).
Proof.
  split; [|split; [|split]].
  - intros a b Hl Hr. repeat split; eval_operands Hl Hr; reflexivity.
  - intros a b Hl Hr. eval_operands Hl Hr. reflexivity.
  - intros lv rv Hl Hr. split; eval_operands Hl Hr; reflexivity.
  - intros lv rv tag [-> | ->] Hl Hr; repeat split; eval_operands Hl Hr;
      reflexivity.
Qed.

Lemma evaluate_arithmetic_tags_witness :
  evaluate 0 (Subtract (IntLiteral 2) (IntLiteral 5)) EmptyState []
  = (Ok (PyInt (-3), Integer, EmptyState), []) /\
  evaluate 0 (Add (StringLiteral "ab") (StringLiteral "c")) EmptyState []
  = (Ok (PyStr "abc", String, EmptyState), []) /\
  evaluate 0 (Multiply (StringLiteral "ab") (StringLiteral "c")) EmptyState []
  = (Raise InterpTypeError, []) /\
  evaluate 0 (Add (BooleanLiteral true) (BooleanLiteral true)) EmptyState []
  = (Raise InterpTypeError, []).
Proof.
  pose proof (evaluate_arithmetic_tags 0 (IntLiteral 2) (IntLiteral 5)
                EmptyState [] EmptyState [] EmptyState []) as Hint.
  pose proof (evaluate_arithmetic_tags 0 (StringLiteral "ab") (StringLiteral "c")
                EmptyState [] EmptyState [] EmptyState []) as Hstr.
  pose proof (evaluate_arithmetic_tags 0 (BooleanLiteral true) (BooleanLiteral true)
                EmptyState [] EmptyState [] EmptyState []) as Hbool.
  split; [|split; [|split]].
  - apply (proj1 Hint 2 5 eq_refl eq_refl).
  - apply (proj1 (proj2 Hstr) "ab"%string "c"%string eq_refl eq_refl).
  - apply (proj1 (proj2 (proj2 Hstr)) (PyStr "ab") (PyStr "c") eq_refl eq_refl).
  - apply (proj2 (proj2 (proj2 Hbool)) (PyBool true) (PyBool true) Boolean
                 (or_introl eq_refl) eq_refl eq_refl).
Defined.

(** ** Comparisons *)

(** X8: On two Integer operands the six comparisons decide the order of
    the integers, and exactly one of Lt, Eq and Gt gives true. *)
Theorem evaluate_compare_Integer fuel l r state out a b st1 out1 st2 out2 :
  evaluate fuel l state out = (Ok (PyInt a, Integer, st1), out1) ->
  evaluate fuel r st1 out1 = (Ok (PyInt b, Integer, st2), out2) ->
  exists lt le gt ge eq ne,
    evaluate fuel (Lt l r) state out = (Ok (PyBool lt, Boolean, st2), out2) /\
    evaluate fuel (Lte l r) state out = (Ok (PyBool le, Boolean, st2), out2) /\
    evaluate fuel (Gt l r) state out = (Ok (PyBool gt, Boolean, st2), out2) /\
    evaluate fuel (Gte l r) state out = (Ok (PyBool ge, Boolean, st2), out2) /\
    evaluate fuel (Eq l r) state out = (Ok (PyBool eq, Boolean, st2), out2) /\
    evaluate fuel (Ne l r) state out = (Ok (PyBool ne, Boolean, st2), out2) /\
    (lt = true <-> a < b) /\ (le = true <-> a <= b) /\
    (gt = true <-> a > b) /\ (ge = true <-> a >= b) /\
    (eq = true <-> a = b) /\ (ne = true <-> a <> b) /\
    (lt = true /\ eq = false /\ gt = false \/
     lt = false /\ eq = true /\ gt = false \/
     lt = false /\ eq = false /\ gt = true).
Proof.
  intros Hl Hr.
  exists (a <? b), (a <=? b), (a >? b), (a >=? b), (a =? b), (negb (a =? b)).
  repeat (split; [eval_operands Hl Hr; reflexivity|]).
  rewrite Z.gtb_ltb, Z.geb_leb, negb_true_iff.
  rewrite Z.ltb_lt, Z.leb_le, Z.ltb_lt, Z.leb_le, Z.eqb_eq, Z.eqb_neq.
  repeat (split; [lia|]).
  destruct (Z.ltb_spec a b), (Z.eqb_spec a b), (Z.ltb_spec b a); try lia; auto.
Qed.

Lemma evaluate_compare_Integer_witness :
  exists lt le gt ge eq ne,
    evaluate 0 (Lt (IntLiteral 2) (IntLiteral 3)) EmptyState []
    = (Ok (PyBool lt, Boolean, EmptyState), []) /\
    evaluate 0 (Lte (IntLiteral 2) (IntLiteral 3)) EmptyState []
    = (Ok (PyBool le, Boolean, EmptyState), []) /\
    evaluate 0 (Gt (IntLiteral 2) (IntLiteral 3)) EmptyState []
    = (Ok (PyBool gt, Boolean, EmptyState), []) /\
    evaluate 0 (Gte (IntLiteral 2) (IntLiteral 3)) EmptyState []
    = (Ok (PyBool ge, Boolean, EmptyState), []) /\
    evaluate 0 (Eq (IntLiteral 2) (IntLiteral 3)) EmptyState []
    = (Ok (PyBool eq, Boolean, EmptyState), []) /\
    evaluate 0 (Ne (IntLiteral 2) (IntLiteral 3)) EmptyState []
    = (Ok (PyBool ne, Boolean, EmptyState), []) /\
    (lt = true <-> 2 < 3) /\ (le = true <-> 2 <= 3) /\
    (gt = true <-> 2 > 3) /\ (ge = true <-> 2 >= 3) /\
    (eq = true <-> 2 = 3) /\ (ne = true <-> 2 <> 3) /\
    (lt = true /\ eq = false /\ gt = false \/
     lt = false /\ eq = true /\ gt = false \/
     lt = false /\ eq = false /\ gt = true).
Proof.
  apply (evaluate_compare_Integer 0 (IntLiteral 2) (IntLiteral 3) EmptyState []
                                  2 3 EmptyState [] EmptyState []);
    reflexivity.
Defined.

(** X9: Whatever the operands give, Ne returns the negation of what Eq
    returns, and fails exactly when Eq fails: on every tag, Unit
    included, the two cases agree. *)
Theorem evaluate_Ne_negates_Eq fuel l r state out lv lt st1 out1 rv rt st2 out2 :
  evaluate fuel l state out = (Ok (lv, lt, st1), out1) ->
  evaluate fuel r st1 out1 = (Ok (rv, rt, st2), out2) ->
  match evaluate fuel (Eq l r) state out with
  | (Ok (PyBool b, t, s), o) =>
      evaluate fuel (Ne l r) state out = (Ok (PyBool (negb b), t, s), o)
  | (Ok (_, _, _), _) => False
  | (Raise e, o) => evaluate fuel (Ne l r) state out = (Raise e, o)
  | (HostError, o) => evaluate fuel (Ne l r) state out = (HostError, o)
  | (OutOfFuel, o) => False
  end.
Proof.
  intros Hl Hr.
  assert (HEq : evaluate fuel (Eq l r) state out = eval_Eq lv lt rv rt st2 out2)
    by (eval_operands Hl Hr; reflexivity).
  assert (HNe : evaluate fuel (Ne l r) state out = eval_Ne lv lt rv rt st2 out2)
    by (eval_operands Hl Hr; reflexivity).
  rewrite HEq, HNe. unfold eval_Eq, eval_Ne, eval_compare, py_ne.
  destruct (negb (Type_eqb lt rt)); [reflexivity|].
  destruct lt; try reflexivity; destruct (py_eq lv rv); reflexivity.
Qed.

Lemma evaluate_Ne_negates_Eq_witness :
  evaluate 0 (Ne (StringLiteral "a") (StringLiteral "b")) EmptyState []
  = (Ok (PyBool (negb false), Boolean, EmptyState), []).
Proof.
  apply (evaluate_Ne_negates_Eq 0 (StringLiteral "a") (StringLiteral "b")
           EmptyState [] (PyStr "a") String EmptyState []
           (PyStr "b") String EmptyState [] eq_refl eq_refl).
Defined.

(** ** Not and If *)

(** X10: Not on a Boolean operand gives the negation and keeps the state
    and output of the operand, so that two Nots give the Boolean back;
    on an operand of any other tag it raises [InterpTypeError]. *)
Theorem evaluate_Not_cases fuel e state out :
  (forall b st1 out1,
      evaluate fuel e state out = (Ok (PyBool b, Boolean, st1), out1) ->
      evaluate fuel (Not e) state out = (Ok (PyBool (negb b), Boolean, st1), out1) /\
      evaluate fuel (Not (Not e)) state out = (Ok (PyBool b, Boolean, st1), out1)) /\
  (forall v t st1 out1,
      evaluate fuel e state out = (Ok (v, t, st1), out1) ->
      t <> Boolean ->
      evaluate fuel (Not e) state out = (Raise InterpTypeError, out1) /\
      evaluate fuel (Not (Not e)) state out = (Raise InterpTypeError, out1)).
Proof.
  split.
  - intros b st1 out1 He.
    assert (H1 : evaluate fuel (Not e) state out
                 = (Ok (PyBool (negb b), Boolean, st1), out1)).
    { cbn [evaluate]. now rewrite (bind_ok _ _ _ _ _ He). }
    split; [exact H1|].
    change (evaluate fuel (Not (Not e)) state out)
      with (bind (evaluate fuel (Not e) state)
                 (fun x => match x with (v, t, s) => eval_Not v t s end) out).
    rewrite (bind_ok _ _ _ _ _ H1). now destruct b.
  - intros v t st1 out1 He Ht.
    assert (H1 : evaluate fuel (Not e) state out = (Raise InterpTypeError, out1)).
    { cbn [evaluate]. rewrite (bind_ok _ _ _ _ _ He). cbn beta iota.
      unfold eval_Not. destruct t; try reflexivity. contradiction. }
    split; [exact H1|].
    change (evaluate fuel (Not (Not e)) state out)
      with (bind (evaluate fuel (Not e) state)
                 (fun x => match x with (v, t, s) => eval_Not v t s end) out).
    now rewrite (bind_raise _ _ _ _ _ H1).
Qed.

Lemma evaluate_Not_cases_witness :
  evaluate 0 (Not (Not (Lt (IntLiteral 1) (IntLiteral 2)))) EmptyState []
  = (Ok (PyBool true, Boolean, EmptyState), []) /\
  evaluate 0 (Not (IntLiteral 0)) EmptyState [] = (Raise InterpTypeError, []).
Proof.
  split.
  - apply (proj1 (evaluate_Not_cases 0 (Lt (IntLiteral 1) (IntLiteral 2))
                    EmptyState []) true EmptyState [] eq_refl).
  - apply (proj2 (evaluate_Not_cases 0 (IntLiteral 0) EmptyState [])
                 (PyInt 0) Integer EmptyState [] eq_refl). discriminate.
Defined.

(** X11: If evaluates its condition, then one branch only, in the state and
    after the output of the condition: the whole is the condition
    followed by the chosen branch, whatever the other branch is; a
    condition that is not Boolean raises [InterpTypeError] and neither
    branch is evaluated. *)
Theorem evaluate_If_cases fuel c t f state out cv ct st1 out1 :
  evaluate fuel c state out = (Ok (cv, ct, st1), out1) ->
  (ct = Boolean -> truthy cv = true ->
   evaluate fuel (If c t f) state out = evaluate fuel t st1 out1 /\
   evaluate fuel (If c t f) state out = evaluate fuel (Sequence [c; t]) state out) /\
  (ct = Boolean -> truthy cv = false ->
   evaluate fuel (If c t f) state out = evaluate fuel f st1 out1 /\
   evaluate fuel (If c t f) state out = evaluate fuel (Sequence [c; f]) state out) /\
  (ct <> Boolean ->
   evaluate fuel (If c t f) state out = (Raise InterpTypeError, out1)).
Proof.
  intros Hc.
  assert (Hseq : forall e, evaluate fuel (Sequence [c; e]) state out
                           = evaluate fuel e st1 out1).
  { intros e. cbn [evaluate sequence_loop].
    rewrite (bind_ok _ _ _ _ _ Hc). cbn beta iota. unfold bind.
    destruct (evaluate fuel e st1 out1) as [[[[v1 t1] s1]|e1| |] o1]; reflexivity. }
  split; [|split].
  - intros -> Hcv. rewrite Hseq.
    assert (H : evaluate fuel (If c t f) state out = evaluate fuel t st1 out1).
    { cbn [evaluate]. rewrite (bind_ok _ _ _ _ _ Hc). cbn beta iota.
      now rewrite Hcv. }
    now split.
  - intros -> Hcv. rewrite Hseq.
    assert (H : evaluate fuel (If c t f) state out = evaluate fuel f st1 out1).
    { cbn [evaluate]. rewrite (bind_ok _ _ _ _ _ Hc). cbn beta iota.
      now rewrite Hcv. }
    now split.
  - intros Hct. cbn [evaluate]. rewrite (bind_ok _ _ _ _ _ Hc). cbn beta iota.
    destruct ct; try reflexivity. contradiction.
Qed.

Lemma evaluate_If_cases_witness :
  evaluate 0 (If (BooleanLiteral false) Unhandled (Print Ren)) EmptyState []
  = evaluate 0 (Print Ren) EmptyState [] /\
  evaluate 0 (If (IntLiteral 1) (Print Ren) (Print Ren)) EmptyState []
  = (Raise InterpTypeError, []).
Proof.
  split.
  - apply (proj1 (proj2 (evaluate_If_cases 0 (BooleanLiteral false) Unhandled
                    (Print Ren) EmptyState [] (PyBool false) Boolean
                    EmptyState [] eq_refl)) eq_refl eq_refl).
  - apply (proj2 (proj2 (evaluate_If_cases 0 (IntLiteral 1) (Print Ren)
                    (Print Ren) EmptyState [] (PyInt 1) Integer
                    EmptyState [] eq_refl))). discriminate.
Defined.

(** ** Values and tags agree *)

(** X12: From a state whose values have the shape of their tags, whatever
    evaluation returns is a value of the shape of its tag (an integer
    under Integer, a float under FloatingPoint, a string under String,
    a boolean under Boolean, none under Unit) with a state of that
    kind again; and evaluation never stops on an exception of the host
    operators: the tag checks of the runtime come before every
    operator it applies. *)
Theorem evaluate_sound_tags fuel e state out o out' :
  well_tagged state ->
  evaluate fuel e state out = (o, out') ->
  o <> HostError /\
  forall v t state', o = Ok (v, t, state') -> has_tag v t /\ well_tagged state'.
Proof.
  intros Hs H. pose proof (evaluate_tagged fuel e state Hs _ _ _ H) as Hpost.
  split.
  - intros ->. exact Hpost.
  - intros v t state' ->. exact Hpost.
Qed.

Lemma evaluate_sound_tags_witness :
  Ok (PyFloat 2.5, FloatingPoint,
      StateNode "x" (PyFloat 2.5, FloatingPoint) EmptyState) <> HostError /\
  forall v t state',
    Ok (PyFloat 2.5, FloatingPoint,
        StateNode "x" (PyFloat 2.5, FloatingPoint) EmptyState)
    = Ok (v, t, state') ->
    has_tag v t /\ well_tagged state'.
Proof.
  apply (evaluate_sound_tags 0
           (Assign "x" (Divide (FloatingPointLiteral 5.0) (FloatingPointLiteral 2.0)))
           EmptyState [] _ []); [exact I | reflexivity].
Defined.

(** ** While: errors, loops that cannot return, a loop that does *)

(** X13: A check that gives a value of another tag than Boolean raises
    [InterpTypeError] and the body is not evaluated; an error raised
    by the body ends the loop with that error. *)
Theorem evaluate_While_errors fuel c body state out cv ct st1 out1 :
  evaluate fuel c state out = (Ok (cv, ct, st1), out1) ->
  (ct <> Boolean ->
   evaluate fuel (While c body) state out = (Raise InterpTypeError, out1)) /\
  (forall e out2,
      (0 < fuel)%nat -> ct = Boolean -> truthy cv = true ->
      evaluate fuel body st1 out1 = (Raise e, out2) ->
      evaluate fuel (While c body) state out = (Raise e, out2)).
Proof.
  intros Hc. split.
  - intros Hct. cbn [evaluate]. destruct fuel; cbn [while_loop];
      rewrite (bind_ok _ _ _ _ _ Hc); cbn beta iota;
      destruct ct; try reflexivity; contradiction.
  - intros e out2 Hfuel -> Hcv Hb. destruct fuel as [|fuel]; [lia|].
    cbn [evaluate while_loop].
    rewrite (bind_ok _ _ _ _ _ Hc). cbn beta iota. rewrite Hcv. cbn [negb].
    now rewrite (bind_raise _ _ _ _ _ Hb).
Qed.

Lemma evaluate_While_errors_witness :
  evaluate 0 (While (IntLiteral 1) (Print Ren)) EmptyState []
  = (Raise InterpTypeError, []) /\
  evaluate 1 (While (BooleanLiteral true) (Variable_ "x")) EmptyState []
  = (Raise InterpSyntaxError, []).
Proof.
  split.
  - apply (proj1 (evaluate_While_errors 0 (IntLiteral 1) (Print Ren)
                    EmptyState [] (PyInt 1) Integer EmptyState [] eq_refl)).
    discriminate.
  - apply (proj2 (evaluate_While_errors 1 (BooleanLiteral true) (Variable_ "x")
                    EmptyState [] (PyBool true) Boolean EmptyState [] eq_refl)
                 InterpSyntaxError []); [lia | reflexivity..].
Defined.

(** X14: A While never returns unless a check fails: with a condition that
    holds whenever it is evaluated, no number of iterations makes the
    loop return a result. *)
Theorem evaluate_While_never_returns fuel c body :
  (forall state out cv state' out',
      evaluate fuel c state out = (Ok (cv, Boolean, state'), out') ->
      truthy cv = true) ->
  forall state out r out',
    evaluate fuel (While c body) state out <> (Ok r, out').
Proof.
  intros Hc state out [[v t] state'] out' H. cbn [evaluate] in H.
  apply while_loop_ok_inv in H.
  destruct H as [cv [checked [out_b [Hlast [Hfalse _]]]]].
  apply Hc in Hlast. congruence.
Qed.

Lemma evaluate_While_never_returns_witness :
  evaluate 5 (While (BooleanLiteral true) (Print (IntLiteral 1))) EmptyState []
  <> (Ok (PyNone, Unit, EmptyState), []).
Proof.
  apply (evaluate_While_never_returns 5 (BooleanLiteral true)
                                      (Print (IntLiteral 1))).
  intros state out cv state' out' H. injection H as <- _ _. reflexivity.
Defined.


Section Count_up.
Variable x : string.
Variable n : Z.




End Count_up.



(** * The dynamic scope *)

Section Dynamic_scope_facts.
Import dynamic_scope.
Context {Any : Type}.
Implicit Types (d : Dict Any) (k : string).

Lemma contains_item d k :
  contains d k = match item d k with Some _ => true | None => false end.
Proof.
  induction d as [|[key value] rest IH]; cbn [contains existsb item fst].
  - reflexivity.
  - destruct (String.eqb key k); [reflexivity | exact IH].
Qed.

Lemma item_setitem d k (v : Any) k' :
  item (setitem d k v) k' = if String.eqb k k' then Some v else item d k'.
Proof.
  induction d as [|[key value] rest IH]; cbn [setitem item].
  - reflexivity.
  - destruct (String.eqb_spec key k) as [->|Hneq]; cbn [item].
    + destruct (String.eqb k k'); reflexivity.
    + rewrite IH. destruct (String.eqb_spec key k') as [->|Hneq'];
        [|reflexivity].
      destruct (String.eqb_spec k k') as [->|_]; [contradiction | reflexivity].
Qed.

Lemma existsb_eqb_sym k k' (l : list string) :
  String.eqb k k' = true ->
  existsb (String.eqb k) l = existsb (String.eqb k') l.
Proof. intros H. apply String.eqb_eq in H. now subst. Qed.

Lemma item_add_locals freeVars localVars :
  forall d k,
    item (add_locals freeVars d localVars) k
    = match item d k with
      | Some v => Some v
      | None =>
          if existsb (String.eqb k) freeVars then None else item localVars k
      end.
Proof.
  unfold add_locals.
  induction localVars as [|[key value] rest IH]; intros d k;
    cbn [fold_left item].
  - destruct (item d k); [reflexivity|]. now destruct (existsb _ freeVars).
  - rewrite IH. rewrite (contains_item d key).
    destruct (item d key) as [v0|] eqn:Hkey; cbn [negb andb].
    + destruct (item d k) as [v|] eqn:Hk; [reflexivity|].
      destruct (String.eqb_spec key k) as [->|_]; [congruence | reflexivity].
    + destruct (existsb (String.eqb key) freeVars) eqn:Hfree; cbn [negb].
      * destruct (item d k) as [v|]; [reflexivity|].
        destruct (String.eqb_spec key k) as [->|_]; [|reflexivity].
        now rewrite Hfree.
      * rewrite item_setitem.
        destruct (String.eqb_spec key k) as [->|_]; [|reflexivity].
        now rewrite Hkey, Hfree.
Qed.

Lemma item_add_frames (callers : list (FrameInfo Any)) :
  forall d k,
    item (fold_left
            (fun dictionary frame =>
               add_locals (co_freevars frame) dictionary (f_locals frame))
            callers d) k
    = match item d k with
      | Some v => Some v
      | None =>
          match find (binds k) callers with
          | Some frame => item (f_locals frame) k
          | None => None
          end
      end.
Proof.
  induction callers as [|frame rest IH]; intros d k; cbn [fold_left find].
  - now destruct (item d k).
  - rewrite IH, item_add_locals.
    assert (Hb : binds k frame
                 = match item (f_locals frame) k with
                   | Some _ => true
                   | None => false
                   end && negb (existsb (String.eqb k) (co_freevars frame)))
      by (unfold binds; now rewrite contains_item).
    rewrite Hb.
    destruct (item d k) as [v|]; [reflexivity|].
    destruct (existsb (String.eqb k) (co_freevars frame));
      cbn [negb andb].
    + rewrite andb_false_r. reflexivity.
    + rewrite andb_true_r.
      destruct (item (f_locals frame) k) eqn:Hitem; cbn beta iota;
        now rewrite ?Hitem.
Qed.

Lemma item_get_dynamic_re (callers : list (FrameInfo Any)) k :
  item (env (get_dynamic_re callers)) k
  = match find (binds k) callers with
    | Some frame => item (f_locals frame) k
    | None => None
    end.
Proof.
  unfold get_dynamic_re. cbn [env]. now rewrite item_add_frames.
Qed.

Lemma getitem_item (self : DynamicScope Any) k :
  getitem self k
  = match item (env self) k with
    | Some value => Returns value
    | None => NameError
    end.
Proof.
  unfold getitem. rewrite contains_item. now destruct (item (env self) k).
Qed.

Lemma find_binds_app (callers outer : list (FrameInfo Any)) k :
  find (binds k) (callers ++ outer)
  = match find (binds k) callers with
    | Some frame => Some frame
    | None => find (binds k) outer
    end.
Proof.
  induction callers as [|frame rest IH]; cbn [app find]; [reflexivity|].
  now destruct (binds k frame).
Qed.

End Dynamic_scope_facts.

(** X16: Looking a name up in the scope built from the callers' frames
    gives the value it has in the nearest frame that binds it as a
    local and not as a free variable, and raises [NameError] when no
    frame does. *)
Theorem get_dynamic_re_resolves {Any : Type}
        (callers : list (dynamic_scope.FrameInfo Any)) (k : string) :
  dynamic_scope.getitem (dynamic_scope.get_dynamic_re callers) k
  = match find (dynamic_scope.binds k) callers with
    | Some frame =>
        match dynamic_scope.item (dynamic_scope.f_locals frame) k with
        | Some value => dynamic_scope.Returns value
        | None => dynamic_scope.NameError
        end
    | None => dynamic_scope.NameError
    end.
Proof.
  rewrite getitem_item, item_get_dynamic_re.
  now destruct (find (dynamic_scope.binds k) callers).
Qed.

(** X17: Frames further out never change what a name already resolves to:
    a name found among the nearer frames keeps its value however many
    outer frames follow. *)
Theorem get_dynamic_re_outer_frames {Any : Type}
        (callers outer : list (dynamic_scope.FrameInfo Any)) (k : string)
        (value : Any) :
  dynamic_scope.getitem (dynamic_scope.get_dynamic_re callers) k
  = dynamic_scope.Returns value ->
  dynamic_scope.getitem (dynamic_scope.get_dynamic_re (callers ++ outer)) k
  = dynamic_scope.Returns value.
Proof.
  rewrite !getitem_item, !item_get_dynamic_re, find_binds_app.
  destruct (find (dynamic_scope.binds k) callers) as [frame|];
    [trivial | discriminate].
Qed.

Lemma get_dynamic_re_outer_frames_witness :
  let inner := {| dynamic_scope.f_locals := [("a"%string, 1); ("b"%string, 2)];
                  dynamic_scope.co_freevars := ["b"%string] |} in
  let outer := {| dynamic_scope.f_locals := [("a"%string, 7); ("b"%string, 8)];
                  dynamic_scope.co_freevars := [] |} in
  dynamic_scope.getitem (dynamic_scope.get_dynamic_re ([inner] ++ [outer]))
                        "a"%string
  = dynamic_scope.Returns 1.
Proof.
  intros inner outer.
  apply (get_dynamic_re_outer_frames [inner] [outer] "a"%string 1).
  reflexivity.
Defined.

(** X18: Iterating over a scope yields exactly the names that a lookup
    answers; for every other name the lookup raises [NameError].  The
    length is the number of names yielded. *)
Theorem DynamicScope_iter_getitem {Any : Type}
        (self : dynamic_scope.DynamicScope Any) (k : string) :
  (In k (dynamic_scope.iter self) <->
   exists value, dynamic_scope.getitem self k = dynamic_scope.Returns value) /\
  (~ In k (dynamic_scope.iter self) <->
   dynamic_scope.getitem self k = dynamic_scope.NameError) /\
  dynamic_scope.len self = List.length (dynamic_scope.iter self).
Proof.
  rewrite getitem_item. unfold dynamic_scope.iter, dynamic_scope.len.
  destruct self as [d]. cbn [dynamic_scope.env].
  assert (Hin : In k (map fst d) <-> dynamic_scope.item d k <> None).
  { induction d as [|[key value] rest IH]; cbn [map fst In dynamic_scope.item].
    - split; [intros [] | intros H; now apply H].
    - destruct (String.eqb_spec key k) as [->|Hneq].
      + split; [discriminate | now left].
      + rewrite <- IH. split; [intros [H|H]; [contradiction | exact H] | now right]. }
  split; [|split].
  - rewrite Hin. destruct (dynamic_scope.item d k) as [v|].
    + split; [eauto | discriminate].
    + split; [congruence | intros [v Hv]; discriminate].
  - rewrite Hin. destruct (dynamic_scope.item d k) as [v|].
    + split; [intros H; exfalso; apply H; discriminate | discriminate].
    + split; [reflexivity | intros _ H; now apply H].
  - now rewrite length_map.
Qed.

(** * Print *)


